(** * istio-cni: the ADD handler of [cmd/istio-cni/main.go]

    A shallow embedding of [parseConfig], [ConfigureLogging] and [cmdAdd]
    together with the properties of the eligibility decision, the redirect
    stage and the process-global variables.

    Go's [error] is a string here ([nil] is the absence of one).  Every
    function of another package, and every function of this package that is
    defined outside [main.go], is a field of the record [Host].  The handler
    runs in a small monad that threads the package-level variables and
    records, in program order, each log call and each call to a
    collaborator. *)

From Stdlib Require Import String List ZArith Bool Lia.
From stdpp Require Import base gmap strings.

Import ListNotations.
Local Open Scope string_scope.
Local Open Scope list_scope.

(** ** Data *)

Definition error := string.

(** A Go pair [(value, err)] in which exactly one side is meaningful. *)
Inductive result (A : Type) : Type :=
| Ok (a : A)
| Err (e : error).
Arguments Ok {A} a.
Arguments Err {A} e.

(** [type Kubernetes struct] *)
Record Kubernetes := {
  K8sAPIRoot : string;
  Kubeconfig : string;
  NodeName : string;
  ExcludeNamespaces : list string;
  CniBinDir : string;
  IptablesScript : string
}.

(** [current.Result] of the CNI library; everything but the version is kept
    as one opaque payload. *)
Record CurrentResult := {
  res_CNIVersion : string;
  res_payload : string
}.

(** [type PluginConf struct].  Of the embedded [types.NetConf] only
    [CNIVersion] is read; [RuntimeConfig] is never read.  The decoded
    [prevResult] object is opaque: the code only tests it against [nil]. *)
Record PluginConf := {
  CNIVersion : string;
  RawPrevResult : option string;
  PrevResult : option CurrentResult;
  LogLevel : string;
  Kubernetes_ : Kubernetes
}.

(** [type K8sArgs struct] *)
Record K8sArgs := {
  IP : string;
  K8S_POD_NAME : string;
  K8S_POD_NAMESPACE : string;
  K8S_POD_INFRA_CONTAINER_ID : string
}.

(** [skel.CmdArgs] *)
Record CmdArgs := {
  ContainerID : string;
  Netns : string;
  IfName : string;
  Args : string;
  Path : string;
  StdinData : string
}.

(** What [getKubePodInfo] returns besides its error; the third component is
    discarded by the caller ([_]) and is left out. *)
Record KubePodInfo := {
  hasProxy : bool;
  containers : list string;
  annotations : gmap string string;
  ports : list string;
  proxyUID : Z;
  proxyGID : Z
}.

(** Modelled from the spec: the type [Redirect] returned by [NewRedirect] is
    declared outside [main.go]; section 3 of the specification gives it the
    proxy identity, the ports in declaration order and the annotations. *)
Record Redirect := {
  redir_proxyUID : Z;
  redir_proxyGID : Z;
  redir_ports : list string;
  redir_annotations : gmap string string
}.

(** The package-level variables of [main.go], lines 35-44. *)
Record Globals := {
  nsSetupBinDir : string;
  nsSetupProg : string;
  injectAnnotationKey : string;
  sidecarStatusKey : string;
  setupRedirect : option (string -> list string -> option error)
}.

Definition initGlobals : Globals := {|
  nsSetupBinDir := "/opt/cni/bin";
  nsSetupProg := "istio-iptables.sh";
  injectAnnotationKey := "sidecar.istio.io/inject";
  sidecarStatusKey := "sidecar.istio.io/status";
  setupRedirect := None
|}.

(** ** Observable events *)

Inductive Level := ErrorLevel | WarnLevel | InfoLevel | DebugLevel.

(** One constructor per log statement of [cmdAdd], with the values it
    formats. *)
Inductive LogMsg :=
| MsgParsingConfig
| MsgConfigParsed (version : string) (prevResult : option CurrentResult)
| MsgGettingIdentifiers (args : string)
| MsgLoadedK8sArgs (k8sArgs : K8sArgs)
| MsgCreatedClient
| MsgErrorGettingPodData (err : error)
| MsgFoundContainers (cs : list string)
| MsgCheckingAnnotations (containerID netns pod namespace : string)
    (ps : list string) (anns : gmap string string)
| MsgContainsInject (pod val : string)
| MsgExcludedInjectDisabled
| MsgExcludedNoSidecar (pod : string)
| MsgSettingUpRedirect
| MsgRedirectFailed (err : error)
| MsgPodExcluded
| MsgNoKubernetesData.

Inductive Event :=
| Log (lvl : Level) (m : LogMsg)
| SetLevel (lvl : Level)
| SetOutputStderr
| CallNewKubeClient
| CallGetKubePodInfo (podName podNamespace : string)
| CallNewRedirect (uid gid : Z) (ps : list string) (anns : gmap string string)
| CallSetupRedirect (netns : string) (ps : list string)
| CallDoRedirect (r : Redirect) (netns : string)
| CallPrintResult (r : CurrentResult) (version : string).

(** ** The monad of the handler *)

Record Outcome (A : Type) := {
  returned : result A;
  globalsAfter : Globals;
  trace : list Event
}.
Arguments returned {A} _.
Arguments globalsAfter {A} _.
Arguments trace {A} _.

Definition M (A : Type) : Type := Globals -> Outcome A.

#[global] Instance M_ret : MRet M := fun A a g =>
  {| returned := Ok a; globalsAfter := g; trace := [] |}.

#[global] Instance M_bind : MBind M := fun A B f m g =>
  let o := m g in
  match returned o with
  | Ok a =>
      let o' := f a (globalsAfter o) in
      {| returned := returned o';
         globalsAfter := globalsAfter o';
         trace := trace o ++ trace o' |}
  | Err e =>
      {| returned := Err e; globalsAfter := globalsAfter o; trace := trace o |}
  end.

(** [return err] *)
Definition fail {A : Type} (e : error) : M A := fun g =>
  {| returned := Err e; globalsAfter := g; trace := [] |}.

Definition emit (e : Event) : M unit := fun g =>
  {| returned := Ok tt; globalsAfter := g; trace := [e] |}.

Definition getGlobals : M Globals := fun g =>
  {| returned := Ok g; globalsAfter := g; trace := [] |}.

Definition putGlobals (g' : Globals) : M unit := fun _ =>
  {| returned := Ok tt; globalsAfter := g'; trace := [] |}.

(** [logrus.Info]/[Infof], [Debug], [Errorf]; the fields attached by
    [WithFields] are part of the message constructor where they matter. *)
Definition logInfo (m : LogMsg) : M unit := emit (Log InfoLevel m).
Definition logDebug (m : LogMsg) : M unit := emit (Log DebugLevel m).
Definition logError (m : LogMsg) : M unit := emit (Log ErrorLevel m).

(** ** Go's standard library *)

(** [strconv.ParseBool]: the two literal tables of the standard library;
    every other string is a syntax error, whose value [cmdAdd] never reads
    (it only tests [err == nil]), hence [None]. *)
Definition ParseBool (str : string) : option bool :=
  if (String.eqb str "1" || String.eqb str "t" || String.eqb str "T"
      || String.eqb str "true" || String.eqb str "TRUE" || String.eqb str "True")%bool
  then Some true
  else if (String.eqb str "0" || String.eqb str "f" || String.eqb str "F"
      || String.eqb str "false" || String.eqb str "FALSE" || String.eqb str "False")%bool
  then Some false
  else None.

(** ** Collaborators *)

Record Host := {
  Client : Type;
  json_Unmarshal : string -> result PluginConf;
  json_Marshal : string -> result string;
  version_NewResult : string -> string -> result string;
  current_NewResultFromResult : string -> result CurrentResult;
  ImplementedSpecVersion : string;
  strings_EqualFold : string -> string -> bool;
  types_LoadArgs : string -> result K8sArgs;
  types_PrintResult : CurrentResult -> string -> option error;
  newKubeClient : PluginConf -> result Client;
  getKubePodInfo : Client -> string -> string -> result KubePodInfo;
  NewRedirect : Z -> Z -> list string -> gmap string string -> result Redirect;
  doRedirect : Redirect -> string -> option error
}.

(** Modelled from the spec: the error of a failed redirect construction,
    named in section 7 of the specification; its text in the code is not
    under [main.go]. *)
Definition InvalidRedirectParameters : error := "InvalidRedirectParameters".

(** Modelled from the spec: [NewRedirect] is defined outside [main.go].
    Section 4.3 of the specification: an empty port list is a construction
    error, the proxy identity must be non-negative, and on success the
    identity, the ports (same order, no deduplication) and the annotations
    are carried into the result. *)

Definition NewRedirect_spec (uid gid : Z) (ps : list string)
    (anns : gmap string string) : result Redirect :=
  match ps with
  | [] => Err InvalidRedirectParameters
  | _ :: _ =>
      if ((uid <? 0) || (gid <? 0))%Z%bool then Err InvalidRedirectParameters
      else Ok {| redir_proxyUID := uid; redir_proxyGID := gid;
                 redir_ports := ps; redir_annotations := anns |}
  end.

(** ** The code of [main.go] *)

Section Plugin.

Context (H : Host).

(** [parseConfig], lines 91-117.  [PrevResult] carries the tag [json:"-"],
    so decoding leaves it [nil]. *)
Definition parseConfig (stdin : string) : result PluginConf :=
  match json_Unmarshal H stdin with
  | Err err => Err ("failed to parse network configuration: " +:+ err)
  | Ok decoded =>
      let conf := {| CNIVersion := CNIVersion decoded;
                     RawPrevResult := RawPrevResult decoded;
                     PrevResult := None;
                     LogLevel := LogLevel decoded;
                     Kubernetes_ := Kubernetes_ decoded |} in
      match RawPrevResult conf with
      | Some raw =>
          match json_Marshal H raw with
          | Err err => Err ("could not serialize prevResult: " +:+ err)
          | Ok resultBytes =>
              match version_NewResult H (CNIVersion conf) resultBytes with
              | Err err => Err ("could not parse prevResult: " +:+ err)
              | Ok res =>
                  match current_NewResultFromResult H res with
                  | Err err =>
                      Err ("could not convert result to current version: " +:+ err)
                  | Ok prev =>
                      Ok {| CNIVersion := CNIVersion conf;
                            RawPrevResult := None;
                            PrevResult := Some prev;
                            LogLevel := LogLevel conf;
                            Kubernetes_ := Kubernetes_ conf |}
                  end
              end
          end
      | None => Ok conf
      end
  end.

(** [ConfigureLogging], lines 120-131. *)
Definition ConfigureLogging (logLevel : string) : M unit :=
  (if strings_EqualFold H logLevel "debug" then emit (SetLevel DebugLevel)
   else if strings_EqualFold H logLevel "info" then emit (SetLevel InfoLevel)
   else emit (SetLevel WarnLevel));;
  emit SetOutputStderr.

(** Lines 161-166: the two assignments to package-level variables. *)
Definition set_nsSetupBinDir (v : string) (g : Globals) : Globals :=
  {| nsSetupBinDir := v;
     nsSetupProg := nsSetupProg g;
     injectAnnotationKey := injectAnnotationKey g;
     sidecarStatusKey := sidecarStatusKey g;
     setupRedirect := setupRedirect g |}.

Definition set_nsSetupProg (v : string) (g : Globals) : Globals :=
  {| nsSetupBinDir := nsSetupBinDir g;
     nsSetupProg := v;
     injectAnnotationKey := injectAnnotationKey g;
     sidecarStatusKey := sidecarStatusKey g;
     setupRedirect := setupRedirect g |}.

Definition assignGlobals (conf : PluginConf) : M unit :=
  (if negb (String.eqb (CniBinDir (Kubernetes_ conf)) "")
   then g ← getGlobals; putGlobals (set_nsSetupBinDir (CniBinDir (Kubernetes_ conf)) g)
   else mret tt);;
  (if negb (String.eqb (IptablesScript (Kubernetes_ conf)) "")
   then g ← getGlobals; putGlobals (set_nsSetupProg (IptablesScript (Kubernetes_ conf)) g)
   else mret tt).

(** Lines 179-185: the loop over [conf.Kubernetes.ExcludeNamespaces], which
    starts from [excludePod := false] and stops at the first equal entry. *)
Fixpoint excludeLoop (podNamespace : string) (namespaces : list string) : bool :=
  match namespaces with
  | [] => false
  | excludeNs :: rest =>
      if String.eqb podNamespace excludeNs then true
      else excludeLoop podNamespace rest
  end.

(** Lines 208-216: the inject annotation; returns the new [excludePod]. *)
Definition injectCheck (podName : string) (anns : gmap string string)
    (excludePod : bool) : M bool :=
  g ← getGlobals;
  match anns !! injectAnnotationKey g with
  | Some val =>
      logInfo (MsgContainsInject podName val);;
      match ParseBool val with
      | Some injectEnabled =>
          if negb injectEnabled
          then logInfo MsgExcludedInjectDisabled;; mret true
          else mret excludePod
      | None => mret excludePod
      end
  | None => mret excludePod
  end.

(** Lines 217-220: the sidecar status annotation; returns the new
    [excludePod]. *)
Definition sidecarCheck (podName : string) (anns : gmap string string)
    (excludePod : bool) : M bool :=
  g ← getGlobals;
  match anns !! sidecarStatusKey g with
  | Some _ => mret excludePod
  | None => logInfo (MsgExcludedNoSidecar podName);; mret true
  end.

(** Lines 222-232: build the redirect and run the executor. *)
Definition redirectBlock (args : CmdArgs) (pod : KubePodInfo) : M unit :=
  logInfo MsgSettingUpRedirect;;
  emit (CallNewRedirect (proxyUID pod) (proxyGID pod) (ports pod) (annotations pod));;
  match NewRedirect H (proxyUID pod) (proxyGID pod) (ports pod) (annotations pod) with
  | Err err => logError (MsgRedirectFailed err);; fail err
  | Ok redirect =>
      g ← getGlobals;
      match setupRedirect g with
      | Some hook =>
          emit (CallSetupRedirect (Netns args) (ports pod));;
          let _ := hook (Netns args) (ports pod) in
          mret tt
      | None =>
          emit (CallDoRedirect redirect (Netns args));;
          match doRedirect H redirect (Netns args) with
          | Some err => fail err
          | None => mret tt
          end
      end
  end.

(** Lines 198-234, entered with [excludePod = false]. *)
Definition podBlock (args : CmdArgs) (podName podNamespace : string)
    (pod : KubePodInfo) : M unit :=
  if hasProxy pod && (1 <? length (containers pod))%nat then
    logInfo (MsgCheckingAnnotations (ContainerID args) (Netns args) podName
               podNamespace (ports pod) (annotations pod));;
    excludePod ← injectCheck podName (annotations pod) false;
    excludePod ← sidecarCheck podName (annotations pod) excludePod;
    if negb excludePod then redirectBlock args pod else mret tt
  else mret tt.

(** Lines 178-240. *)
Definition k8sBlock (args : CmdArgs) (conf : PluginConf)
    (podName podNamespace : string) : M unit :=
  if negb (String.eqb podNamespace "") && negb (String.eqb podName "") then
    let excludePod :=
      excludeLoop podNamespace (ExcludeNamespaces (Kubernetes_ conf)) in
    if negb excludePod then
      emit CallNewKubeClient;;
      match newKubeClient H conf with
      | Err err => fail err
      | Ok client =>
          logDebug MsgCreatedClient;;
          emit (CallGetKubePodInfo podName podNamespace);;
          match getKubePodInfo H client podName podNamespace with
          | Err err => logError (MsgErrorGettingPodData err);; fail err
          | Ok pod =>
              logInfo (MsgFoundContainers (containers pod));;
              podBlock args podName podNamespace pod
          end
      end
    else logInfo MsgPodExcluded
  else logInfo MsgNoKubernetesData.

(** Lines 242-251. *)
Definition resultOf (conf : PluginConf) : CurrentResult :=
  match PrevResult conf with
  | None => {| res_CNIVersion := ImplementedSpecVersion H; res_payload := "" |}
  | Some prev => prev
  end.

Definition printBlock (conf : PluginConf) : M unit :=
  emit (CallPrintResult (resultOf conf) (CNIVersion conf));;
  match types_PrintResult H (resultOf conf) (CNIVersion conf) with
  | Some err => fail err
  | None => mret tt
  end.

(** [cmdAdd], lines 134-252. *)
Definition cmdAdd (args : CmdArgs) : M unit :=
  logInfo MsgParsingConfig;;
  match parseConfig (StdinData args) with
  | Err err => fail err
  | Ok conf =>
      ConfigureLogging (LogLevel conf);;
      logInfo (MsgConfigParsed (CNIVersion conf) (PrevResult conf));;
      match types_LoadArgs H (Args args) with
      | Err err => fail err
      | Ok k8sArgs =>
          logInfo (MsgGettingIdentifiers (Args args));;
          logInfo (MsgLoadedK8sArgs k8sArgs);;
          assignGlobals conf;;
          k8sBlock args conf (K8S_POD_NAME k8sArgs) (K8S_POD_NAMESPACE k8sArgs);;
          printBlock conf
      end
  end.

End Plugin.

Arguments parseConfig H stdin : assert.

(** ** What a run shows *)

(** The verdicts of the specification's data model.  [main.go] has no such
    type: it keeps one boolean [excludePod] and tells the reason in a log
    line. *)
Inductive Verdict :=
| Allow
| ExcludedByNamespace
| ExcludedNoPod
| ExcludedNoProxyOrSingleContainer
| ExcludedByInjectAnnotation
| ExcludedMissingSidecarStatus.

(** The verdict a log line of [cmdAdd] announces: line 236, line 239,
    line 212, line 218, and line 222 (reached only under [!excludePod]). *)
Definition announced (e : Event) : option Verdict :=
  match e with
  | Log _ MsgPodExcluded => Some ExcludedByNamespace
  | Log _ MsgNoKubernetesData => Some ExcludedNoPod
  | Log _ MsgExcludedInjectDisabled => Some ExcludedByInjectAnnotation
  | Log _ (MsgExcludedNoSidecar _) => Some ExcludedMissingSidecarStatus
  | Log _ MsgSettingUpRedirect => Some Allow
  | _ => None
  end.

Definition isFoundContainers (e : Event) : bool :=
  match e with
  | Log _ (MsgFoundContainers _) => true
  | _ => false
  end.

(** Every verdict of a run, in program order.  The branch of line 198 not
    taken is the one silent verdict: the pod data was fetched (line 197) and
    nothing was announced afterwards. *)
Definition verdicts (tr : list Event) : list Verdict :=
  match omap announced tr with
  | [] => if existsb isFoundContainers tr
          then [ExcludedNoProxyOrSingleContainer] else []
  | vs => vs
  end.

Definition isExecutorCall (e : Event) : bool :=
  match e with
  | CallSetupRedirect _ _ | CallDoRedirect _ _ => true
  | _ => false
  end.

Definition isNewRedirectCall (e : Event) : bool :=
  match e with
  | CallNewRedirect _ _ _ _ => true
  | _ => false
  end.

Definition isMetadataQuery (e : Event) : bool :=
  match e with
  | CallNewKubeClient | CallGetKubePodInfo _ _ => true
  | _ => false
  end.

Definition isPrintResult (e : Event) : bool :=
  match e with
  | CallPrintResult _ _ => true
  | _ => false
  end.

(** Lines 208-220 read the annotations; these are their log lines. *)
Definition isAnnotationLog (e : Event) : bool :=
  match e with
  | Log _ (MsgCheckingAnnotations _ _ _ _ _ _)
  | Log _ (MsgContainsInject _ _)
  | Log _ MsgExcludedInjectDisabled
  | Log _ (MsgExcludedNoSidecar _) => true
  | _ => false
  end.

Definition countEv (p : Event -> bool) (tr : list Event) : nat :=
  length (List.filter p tr).

(** ** A concrete host *)

Module Sample.

Definition kube (excl : list string) (binDir script : string) : Kubernetes :=
  {| K8sAPIRoot := ""; Kubeconfig := ""; NodeName := "node-1";
     ExcludeNamespaces := excl; CniBinDir := binDir; IptablesScript := script |}.

Definition conf (excl : list string) (binDir script : string) : PluginConf :=
  {| CNIVersion := "0.3.1"; RawPrevResult := None; PrevResult := None;
     LogLevel := "info"; Kubernetes_ := kube excl binDir script |}.

Definition k8sArgs (name ns : string) : K8sArgs :=
  {| IP := ""; K8S_POD_NAME := name; K8S_POD_NAMESPACE := ns;
     K8S_POD_INFRA_CONTAINER_ID := "c0ffee" |}.

Definition args : CmdArgs :=
  {| ContainerID := "c0ffee"; Netns := "/var/run/netns/pod1"; IfName := "eth0";
     Args := "K8S_POD_NAMESPACE=default;K8S_POD_NAME=web"; Path := "/opt/cni/bin";
     StdinData := "{}" |}.

Definition pod (proxy : bool) (cs : list string) (anns : gmap string string)
    (ps : list string) : KubePodInfo :=
  {| hasProxy := proxy; containers := cs; annotations := anns; ports := ps;
     proxyUID := 1337; proxyGID := 1337 |}.

(** A host that decodes to [c], loads [k], answers the pod query with [p],
    builds redirects by the specification's rules, and whose production
    executor returns [exec]. *)
Definition host (c : PluginConf) (k : K8sArgs) (p : KubePodInfo)
    (exec : option error) : Host :=
  {| Client := unit;
     json_Unmarshal := fun _ => Ok c;
     json_Marshal := fun raw => Ok raw;
     version_NewResult := fun _ bytes => Ok bytes;
     current_NewResultFromResult := fun res =>
       Ok {| res_CNIVersion := "0.3.1"; res_payload := res |};
     ImplementedSpecVersion := "0.3.1";
     strings_EqualFold := String.eqb;
     types_LoadArgs := fun _ => Ok k;
     types_PrintResult := fun _ _ => None;
     newKubeClient := fun _ => Ok tt;
     getKubePodInfo := fun _ _ _ => Ok p;
     NewRedirect := NewRedirect_spec;
     doRedirect := fun _ _ => exec |}.

Definition status : gmap string string :=
  {[ "sidecar.istio.io/status" := "{}" ]}.

Definition withInject (v : string) (m : gmap string string) : gmap string string :=
  <[ "sidecar.istio.io/inject" := v ]> m.

Definition twoContainers : list string := ["app"; "istio-proxy"].

Definition plainConf : PluginConf := conf ["kube-system"] "" "".
Definition web : K8sArgs := k8sArgs "web" "default".

(** The end-to-end pod of the specification's section 8. *)
Definition podAllow : KubePodInfo := pod true twoContainers status ["9080"].
Definition hostAllow : Host := host plainConf web podAllow None.

(** Eligible, but no port is declared. *)
Definition podNoPorts : KubePodInfo := pod true twoContainers status [].
Definition hostNoPorts : Host := host plainConf web podNoPorts None.

(** Only the proxy container. *)
Definition podSingle : KubePodInfo := pod true ["istio-proxy"] status ["9080"].
Definition hostSingle : Host := host plainConf web podSingle None.

(** Injection disabled and no status annotation. *)
Definition podOptedOut : KubePodInfo :=
  pod true twoContainers (withInject "false" ∅) ["9080"].
Definition hostOptedOut : Host := host plainConf web podOptedOut None.

(** A malformed inject annotation. *)
Definition podMalformed : KubePodInfo :=
  pod true twoContainers (withInject "not-a-bool" status) ["9080"].
Definition hostMalformed : Host := host plainConf web podMalformed None.

(** Injection disabled with the literal [F]. *)
Definition podShortFalse : KubePodInfo :=
  pod true twoContainers (withInject "F" status) ["9080"].
Definition hostShortFalse : Host := host plainConf web podShortFalse None.

(** A pod of an excluded namespace. *)
Definition hostExcludedNs : Host :=
  host plainConf (k8sArgs "coredns" "kube-system") podAllow None.

(** The production executor fails. *)
Definition hostExecFails : Host :=
  host plainConf web podAllow (Some "iptables failed").

(** The override hook is installed and reports an error. *)
Definition hookedGlobals : Globals :=
  {| nsSetupBinDir := "/opt/cni/bin";
     nsSetupProg := "istio-iptables.sh";
     injectAnnotationKey := "sidecar.istio.io/inject";
     sidecarStatusKey := "sidecar.istio.io/status";
     setupRedirect := Some (fun _ _ => Some "hook failed") |}.

(** A configuration that names its own binary directory. *)
Definition hostCustomBin : Host :=
  host (conf ["kube-system"] "/custom/bin" "") web podAllow None.

End Sample.

(** ** Vocabulary of the statements *)

(** The package-level variables after lines 161-166. *)
Definition assigned (conf : PluginConf) (g : Globals) : Globals :=
  let g1 := if String.eqb (CniBinDir (Kubernetes_ conf)) "" then g
            else set_nsSetupBinDir (CniBinDir (Kubernetes_ conf)) g in
  if String.eqb (IptablesScript (Kubernetes_ conf)) "" then g1
  else set_nsSetupProg (IptablesScript (Kubernetes_ conf)) g1.

(** The invocation decodes its configuration to [conf] and its CNI arguments
    to [k8sArgs]. *)
Definition Parses (H : Host) (args : CmdArgs) (conf : PluginConf)
    (k8sArgs : K8sArgs) : Prop :=
  parseConfig H (StdinData args) = Ok conf /\
  types_LoadArgs H (Args args) = Ok k8sArgs.

(** The invocation passes lines 178-186 and both collaborators of lines
    187-192 answer: the pod query returns [pod]. *)
Definition ReachesPod (H : Host) (args : CmdArgs) (conf : PluginConf)
    (k8sArgs : K8sArgs) (pod : KubePodInfo) : Prop :=
  Parses H args conf k8sArgs /\
  K8S_POD_NAMESPACE k8sArgs <> "" /\
  K8S_POD_NAME k8sArgs <> "" /\
  ~ In (K8S_POD_NAMESPACE k8sArgs) (ExcludeNamespaces (Kubernetes_ conf)) /\
  exists client : Client H,
    newKubeClient H conf = Ok client /\
    getKubePodInfo H client (K8S_POD_NAME k8sArgs) (K8S_POD_NAMESPACE k8sArgs)
      = Ok pod.

(** Everything [cmdAdd] records before line 198 when the pod query
    answers. *)
Definition podPrefix (lvl : Level) (args : CmdArgs) (conf : PluginConf)
    (k8sArgs : K8sArgs) (pod : KubePodInfo) : list Event :=
  [ Log InfoLevel MsgParsingConfig; SetLevel lvl; SetOutputStderr;
    Log InfoLevel (MsgConfigParsed (CNIVersion conf) (PrevResult conf));
    Log InfoLevel (MsgGettingIdentifiers (Args args));
    Log InfoLevel (MsgLoadedK8sArgs k8sArgs);
    CallNewKubeClient; Log DebugLevel MsgCreatedClient;
    CallGetKubePodInfo (K8S_POD_NAME k8sArgs) (K8S_POD_NAMESPACE k8sArgs);
    Log InfoLevel (MsgFoundContainers (containers pod)) ].

(** Everything [cmdAdd] records before line 178. *)
Definition gatePrefix (lvl : Level) (args : CmdArgs) (conf : PluginConf)
    (k8sArgs : K8sArgs) : list Event :=
  [ Log InfoLevel MsgParsingConfig; SetLevel lvl; SetOutputStderr;
    Log InfoLevel (MsgConfigParsed (CNIVersion conf) (PrevResult conf));
    Log InfoLevel (MsgGettingIdentifiers (Args args));
    Log InfoLevel (MsgLoadedK8sArgs k8sArgs) ].

(** What [return types.PrintResult(result, conf.CNIVersion)] hands back. *)
Definition printReturned (H : Host) (conf : PluginConf) : result unit :=
  match types_PrintResult H (resultOf H conf) (CNIVersion conf) with
  | Some err => Err err
  | None => Ok tt
  end.

(** Lines 208-216 as a function of the looked-up inject annotation: whether
    they set [excludePod], and what they log. *)
Definition injectExcludes (found : option string) : bool :=
  match found ≫= ParseBool with
  | Some false => true
  | _ => false
  end.

Definition injectTrace (podName : string) (found : option string) : list Event :=
  match found with
  | Some val =>
      Log InfoLevel (MsgContainsInject podName val) ::
      (if injectExcludes found then [Log InfoLevel MsgExcludedInjectDisabled]
       else [])
  | None => []
  end.

(** Lines 217-220 as a function of the looked-up status annotation. *)
Definition sidecarExcludes (found : option string) : bool :=
  match found with
  | Some _ => false
  | None => true
  end.

Definition sidecarTrace (podName : string) (found : option string) : list Event :=
  match found with
  | Some _ => []
  | None => [Log InfoLevel (MsgExcludedNoSidecar podName)]
  end.

(** Lines 198-222 as a function of the pod data: whether line 222 is
    reached, and every verdict on the way, in program order. *)
Definition passesLine198 (pod : KubePodInfo) : bool :=
  hasProxy pod && (1 <? length (containers pod))%nat.

Definition allows (g : Globals) (pod : KubePodInfo) : bool :=
  passesLine198 pod
  && negb (injectExcludes (annotations pod !! injectAnnotationKey g)
           || sidecarExcludes (annotations pod !! sidecarStatusKey g)).

Definition podVerdicts (g : Globals) (pod : KubePodInfo) : list Verdict :=
  if passesLine198 pod then
    (if injectExcludes (annotations pod !! injectAnnotationKey g)
     then [ExcludedByInjectAnnotation] else []) ++
    (if sidecarExcludes (annotations pod !! sidecarStatusKey g)
     then [ExcludedMissingSidecarStatus] else []) ++
    (if allows g pod then [Allow] else [])
  else [ExcludedNoProxyOrSingleContainer].

(** What lines 223-232 return ([Ok] when control falls through to line
    242), and how often they run an executor. *)
Definition redirectReturned (H : Host) (args : CmdArgs) (g : Globals)
    (pod : KubePodInfo) : result unit :=
  match NewRedirect H (proxyUID pod) (proxyGID pod) (ports pod)
          (annotations pod) with
  | Err err => Err err
  | Ok redirect =>
      match setupRedirect g with
      | Some _ => Ok tt
      | None =>
          match doRedirect H redirect (Netns args) with
          | Some err => Err err
          | None => Ok tt
          end
      end
  end.

Definition redirectExecutorCalls (H : Host) (args : CmdArgs) (g : Globals)
    (pod : KubePodInfo) : list Event :=
  match NewRedirect H (proxyUID pod) (proxyGID pod) (ports pod)
          (annotations pod) with
  | Err _ => []
  | Ok redirect =>
      match setupRedirect g with
      | Some _ => [CallSetupRedirect (Netns args) (ports pod)]
      | None => [CallDoRedirect redirect (Netns args)]
      end
  end.

(** The evaluator in the words of section 4.2 of the specification: four
    rules in order, the first that matches decides. *)
Definition EligibilityEvaluator_spec (g : Globals) (pod : KubePodInfo) : Verdict :=
  if negb (hasProxy pod) || negb (1 <? length (containers pod))%nat
  then ExcludedNoProxyOrSingleContainer
  else
    match annotations pod !! injectAnnotationKey g ≫= ParseBool with
    | Some false => ExcludedByInjectAnnotation
    | _ =>
        match annotations pod !! sidecarStatusKey g with
        | None => ExcludedMissingSidecarStatus
        | Some _ => Allow
        end
    end.

(** ** The other handlers of [main.go] *)

(** The log statements of [cmdGet] (line 255) and [cmdDel] (line 262). *)
Inductive LifecycleMsg :=
| MsgGetNotImplemented
| MsgDelParsingConfig.

(** What the two short handlers record: their own log lines, and the events
    of the functions they share with [cmdAdd]. *)
Inductive LifecycleEvent :=
| OwnLog (lvl : Level) (m : LifecycleMsg)
| Shared (e : Event).

(** A run of [cmdGet] or [cmdDel]: the returned [error] ([None] is [nil]),
    the package-level variables afterwards, and the events in order. *)
Record LifecycleOutcome := {
  lc_returned : option error;
  lc_globals : Globals;
  lc_trace : list LifecycleEvent
}.

(** [cmdGet], lines 254-258. *)
Definition cmdGet (args : CmdArgs) (g : Globals) : LifecycleOutcome :=
  {| lc_returned := Some "not implemented";
     lc_globals := g;
     lc_trace := [OwnLog InfoLevel MsgGetNotImplemented] |}.

(** [cmdDel], lines 261-273.  [ConfigureLogging] returns nothing, so once
    the configuration is decoded the handler returns [nil]. *)
Definition cmdDel (H : Host) (args : CmdArgs) (g : Globals) : LifecycleOutcome :=
  match parseConfig H (StdinData args) with
  | Err err =>
      {| lc_returned := Some err;
         lc_globals := g;
         lc_trace := [OwnLog InfoLevel MsgDelParsingConfig] |}
  | Ok conf =>
      let o := ConfigureLogging H (LogLevel conf) g in
      {| lc_returned := None;
         lc_globals := globalsAfter o;
         lc_trace := OwnLog InfoLevel MsgDelParsingConfig
                     :: map Shared (trace o) |}
  end.

(** ** Vocabulary of the further statements *)

(** The calls to collaborators among the events of a run. *)
Definition isCall (e : Event) : bool :=
  match e with
  | Log _ _ | SetLevel _ | SetOutputStderr => false
  | _ => true
  end.

Definition callsOf (tr : list Event) : list Event := List.filter isCall tr.

Inductive CallKind := KClient | KQuery | KBuild | KExecute | KPrint.

Definition kindOf (e : Event) : option CallKind :=
  match e with
  | CallNewKubeClient => Some KClient
  | CallGetKubePodInfo _ _ => Some KQuery
  | CallNewRedirect _ _ _ _ => Some KBuild
  | CallSetupRedirect _ _ | CallDoRedirect _ _ => Some KExecute
  | CallPrintResult _ _ => Some KPrint
  | _ => None
  end.

Definition callKinds (tr : list Event) : list CallKind := omap kindOf tr.

Definition isSetLevel (e : Event) : bool :=
  match e with
  | SetLevel _ => true
  | _ => false
  end.

Definition isDoRedirectCall (e : Event) : bool :=
  match e with
  | CallDoRedirect _ _ => true
  | _ => false
  end.

Definition isSetupRedirectCall (e : Event) : bool :=
  match e with
  | CallSetupRedirect _ _ => true
  | _ => false
  end.

(** A collaborator call among the events of [cmdGet] or [cmdDel]. *)
Definition isSharedCall (e : LifecycleEvent) : bool :=
  match e with
  | Shared e' => isCall e'
  | OwnLog _ _ => false
  end.

(** The collaborator calls of lines 198-234 on the pod data [pod], and
    whether control falls through to line 242. *)
Definition podCalls (H : Host) (args : CmdArgs) (g : Globals)
    (pod : KubePodInfo) : list Event :=
  if allows g pod
  then CallNewRedirect (proxyUID pod) (proxyGID pod) (ports pod)
         (annotations pod) :: redirectExecutorCalls H args g pod
  else [].

Definition podReturned (H : Host) (args : CmdArgs) (g : Globals)
    (pod : KubePodInfo) : result unit :=
  if allows g pod then redirectReturned H args g pod else Ok tt.

(** The result and the collaborator calls of [cmdAdd] as one decision tree
    over the answers of the collaborators. *)
Definition addOutline (H : Host) (args : CmdArgs) (g : Globals)
    : result unit * list Event :=
  match parseConfig H (StdinData args) with
  | Err err => (Err err, [])
  | Ok conf =>
      match types_LoadArgs H (Args args) with
      | Err err => (Err err, [])
      | Ok k8sArgs =>
          let podName := K8S_POD_NAME k8sArgs in
          let podNamespace := K8S_POD_NAMESPACE k8sArgs in
          let print := CallPrintResult (resultOf H conf) (CNIVersion conf) in
          if negb (String.eqb podNamespace "") && negb (String.eqb podName "")
             && negb (excludeLoop podNamespace
                        (ExcludeNamespaces (Kubernetes_ conf)))
          then
            match newKubeClient H conf with
            | Err err => (Err err, [CallNewKubeClient])
            | Ok client =>
                let query := CallGetKubePodInfo podName podNamespace in
                match getKubePodInfo H client podName podNamespace with
                | Err err => (Err err, [CallNewKubeClient; query])
                | Ok pod =>
                    match podReturned H args g pod with
                    | Err err =>
                        (Err err,
                         CallNewKubeClient :: query :: podCalls H args g pod)
                    | Ok _ =>
                        (printReturned H conf,
                         CallNewKubeClient :: query :: podCalls H args g pod
                         ++ [print])
                    end
                end
            end
          else (printReturned H conf, [print])
      end
  end.

(** ** Hosts whose collaborators fail *)

Module Faulty.

(** A host whose decoder, argument loader, client constructor, pod query and
    result printer answer as given; previous results are converted as in
    [Sample.host]. *)
Definition host (decoded : result PluginConf) (loaded : result K8sArgs)
    (client : result unit) (queried : result KubePodInfo)
    (printed : option error) : Host :=
  {| Client := unit;
     json_Unmarshal := fun _ => decoded;
     json_Marshal := fun raw => Ok raw;
     version_NewResult := fun version bytes =>
       if String.eqb version "0.3.1" then Ok bytes
       else Err "unsupported CNI result version";
     current_NewResultFromResult := fun res =>
       Ok {| res_CNIVersion := "0.3.1"; res_payload := res |};
     ImplementedSpecVersion := "0.3.1";
     strings_EqualFold := String.eqb;
     types_LoadArgs := fun _ => loaded;
     types_PrintResult := fun _ _ => printed;
     newKubeClient := fun _ => client;
     getKubePodInfo := fun _ _ _ => queried;
     NewRedirect := NewRedirect_spec;
     doRedirect := fun _ _ => None |}.

Definition badConfig : Host :=
  host (Err "unexpected end of JSON input") (Ok Sample.web) (Ok tt)
    (Ok Sample.podAllow) None.

Definition customBinConf : PluginConf :=
  Sample.conf ["kube-system"] "/custom/bin" "setup.sh".

Definition badArgs : Host :=
  host (Ok customBinConf) (Err "ARGS: invalid pair") (Ok tt)
    (Ok Sample.podAllow) None.

Definition noClient : Host :=
  host (Ok customBinConf) (Ok Sample.web) (Err "no kubeconfig") (Ok Sample.podAllow)
    None.

Definition noPod : Host :=
  host (Ok Sample.plainConf) (Ok Sample.web) (Ok tt) (Err "pods web not found")
    None.

(** A configuration that carries the result of the previous plugin. *)
Definition chainedDecoded (version : string) : PluginConf :=
  {| CNIVersion := version; RawPrevResult := Some "ips-and-routes";
     PrevResult := None; LogLevel := "debug";
     Kubernetes_ := Sample.kube ["kube-system"] "" "" |}.

Definition chained : Host :=
  host (Ok (chainedDecoded "0.3.1")) (Ok Sample.web) (Ok tt)
    (Ok Sample.podAllow) None.

Definition chainedOldVersion : Host :=
  host (Ok (chainedDecoded "0.1.0")) (Ok Sample.web) (Ok tt)
    (Ok Sample.podAllow) None.

(** The pod carries no status annotation and no inject annotation. *)
Definition podNoStatus : KubePodInfo :=
  Sample.pod true Sample.twoContainers ∅ ["9080"].

Definition noStatus : Host :=
  host (Ok Sample.plainConf) (Ok Sample.web) (Ok tt) (Ok podNoStatus) None.

Definition plainHost : Host :=
  host (Ok Sample.plainConf) (Ok Sample.web) (Ok tt) (Ok Sample.podAllow) None.

Definition customHost : Host :=
  host (Ok customBinConf) (Ok Sample.web) (Ok tt) (Ok Sample.podAllow) None.

End Faulty.

(** * Properties *)

(** ** Runs of the monad *)

Lemma countEv_app p (a b : list Event) :
  countEv p (a ++ b) = countEv p a + countEv p b.
Proof. unfold countEv. by rewrite List.filter_app, length_app. Qed.

Lemma verdicts_around (pre t post : list Event) :
  omap announced pre = [] ->
  omap announced post = [] ->
  existsb isFoundContainers pre = true ->
  verdicts (pre ++ t ++ post) =
    match omap announced t with
    | [] => [ExcludedNoProxyOrSingleContainer]
    | vs => vs
    end.
Proof.
  intros Hpre Hpost Hfound. unfold verdicts.
  rewrite !omap_app, Hpre, Hpost, app_nil_r, existsb_app, Hfound. reflexivity.
Qed.

Lemma verdicts_quiet (pre t : list Event) :
  omap announced pre = [] ->
  existsb isFoundContainers pre = false ->
  existsb isFoundContainers t = false ->
  verdicts (pre ++ t) = omap announced t.
Proof.
  intros Hpre Hf1 Hf2. unfold verdicts.
  rewrite omap_app, Hpre, existsb_app, Hf1, Hf2. simpl.
  by destruct (omap announced t).
Qed.

Lemma excludeLoop_In ns l : excludeLoop ns l = true <-> In ns l.
Proof.
  induction l as [|x l IH]; simpl.
  - split; [discriminate | tauto].
  - destruct (String.eqb_spec ns x) as [->|Hne].
    + split; auto.
    + rewrite IH. split; [auto | intros [Heq | Hin]; [congruence | exact Hin]].
Qed.

(** The comparison of line 181 is Go's string equality: an entry that
    differs only in letter case does not exclude. *)
Example excludeLoop_case_sensitive :
  excludeLoop "Kube-System" ["kube-system"] = false /\
  excludeLoop "kube-system" ["default"; "kube-system"] = true.
Proof. split; reflexivity. Qed.

Lemma eqb_empty_false s : s <> "" -> String.eqb s "" = false.
Proof. intros Hne. by apply String.eqb_neq. Qed.

Section Runs.

Context (H : Host).

Lemma ConfigureLogging_run logLevel g :
  exists lvl,
    ConfigureLogging H logLevel g =
      {| returned := Ok tt; globalsAfter := g;
         trace := [SetLevel lvl; SetOutputStderr] |}.
Proof.
  unfold ConfigureLogging.
  destruct (strings_EqualFold H logLevel "debug");
    [exists DebugLevel; reflexivity |].
  destruct (strings_EqualFold H logLevel "info");
    [exists InfoLevel | exists WarnLevel]; reflexivity.
Qed.

Lemma assignGlobals_run conf g :
  assignGlobals conf g =
    {| returned := Ok tt; globalsAfter := assigned conf g; trace := [] |}.
Proof.
  unfold assignGlobals, assigned.
  destruct (String.eqb (CniBinDir (Kubernetes_ conf)) "");
    destruct (String.eqb (IptablesScript (Kubernetes_ conf)) ""); reflexivity.
Qed.

Lemma assigned_keys conf g :
  injectAnnotationKey (assigned conf g) = injectAnnotationKey g /\
  sidecarStatusKey (assigned conf g) = sidecarStatusKey g /\
  setupRedirect (assigned conf g) = setupRedirect g.
Proof.
  unfold assigned.
  destruct (String.eqb (CniBinDir (Kubernetes_ conf)) "");
    destruct (String.eqb (IptablesScript (Kubernetes_ conf)) ""); auto.
Qed.

(** After a successful decode, [cmdAdd] is the gate prefix, then lines
    178-240, then lines 242-251, run on the reassigned globals. *)
Lemma cmdAdd_run args conf k8sArgs g :
  Parses H args conf k8sArgs ->
  exists lvl,
    let o := (k8sBlock H args conf (K8S_POD_NAME k8sArgs)
                (K8S_POD_NAMESPACE k8sArgs);; printBlock H conf)
               (assigned conf g) in
    cmdAdd H args g =
      {| returned := returned o; globalsAfter := globalsAfter o;
         trace := gatePrefix lvl args conf k8sArgs ++ trace o |}.
Proof.
  intros [Hparse Hload].
  destruct (ConfigureLogging_run (LogLevel conf) g) as [lvl Hlog].
  exists lvl. unfold cmdAdd, mbind, M_bind, logInfo, emit. simpl.
  rewrite Hparse. simpl. rewrite Hlog. simpl. rewrite Hload. simpl.
  rewrite assignGlobals_run. simpl.
  destruct (returned (k8sBlock H args conf (K8S_POD_NAME k8sArgs)
                        (K8S_POD_NAMESPACE k8sArgs) (assigned conf g)));
    reflexivity.
Qed.

Lemma injectCheck_run podName anns excludePod g :
  injectCheck podName anns excludePod g =
    {| returned := Ok (if injectExcludes (anns !! injectAnnotationKey g)
                       then true else excludePod);
       globalsAfter := g;
       trace := injectTrace podName (anns !! injectAnnotationKey g) |}.
Proof.
  unfold injectCheck, injectTrace, injectExcludes, mbind, M_bind, getGlobals.
  simpl. destruct (anns !! injectAnnotationKey g) as [val|]; [|reflexivity].
  simpl. destruct (ParseBool val) as [[|]|]; reflexivity.
Qed.

Lemma sidecarCheck_run podName anns excludePod g :
  sidecarCheck podName anns excludePod g =
    {| returned := Ok (match anns !! sidecarStatusKey g with
                       | Some _ => excludePod
                       | None => true
                       end);
       globalsAfter := g;
       trace := sidecarTrace podName (anns !! sidecarStatusKey g) |}.
Proof.
  unfold sidecarCheck, sidecarTrace, mbind, M_bind, getGlobals. simpl.
  destruct (anns !! sidecarStatusKey g); reflexivity.
Qed.

Lemma redirectBlock_run args pod g :
  redirectBlock H args pod g =
    let call := CallNewRedirect (proxyUID pod) (proxyGID pod) (ports pod)
                  (annotations pod) in
    match NewRedirect H (proxyUID pod) (proxyGID pod) (ports pod)
            (annotations pod) with
    | Err err =>
        {| returned := Err err; globalsAfter := g;
           trace := [Log InfoLevel MsgSettingUpRedirect; call;
                     Log ErrorLevel (MsgRedirectFailed err)] |}
    | Ok redirect =>
        match setupRedirect g with
        | Some hook =>
            {| returned := Ok tt; globalsAfter := g;
               trace := [Log InfoLevel MsgSettingUpRedirect; call;
                         CallSetupRedirect (Netns args) (ports pod)] |}
        | None =>
            {| returned := match doRedirect H redirect (Netns args) with
                           | Some err => Err err
                           | None => Ok tt
                           end;
               globalsAfter := g;
               trace := [Log InfoLevel MsgSettingUpRedirect; call;
                         CallDoRedirect redirect (Netns args)] |}
        end
    end.
Proof.
  unfold redirectBlock, mbind, M_bind, logInfo, logError, emit, getGlobals.
  simpl.
  destruct (NewRedirect H (proxyUID pod) (proxyGID pod) (ports pod)
              (annotations pod)) as [redirect|err]; simpl; [|reflexivity].
  destruct (setupRedirect g) as [hook|]; simpl; [reflexivity|].
  destruct (doRedirect H redirect (Netns args)); reflexivity.
Qed.

Lemma podBlock_skip args podName podNamespace pod g :
  hasProxy pod && (1 <? length (containers pod))%nat = false ->
  podBlock H args podName podNamespace pod g =
    {| returned := Ok tt; globalsAfter := g; trace := [] |}.
Proof. intros Hgate. unfold podBlock. rewrite Hgate. reflexivity. Qed.

Lemma podBlock_enter args podName podNamespace pod g :
  hasProxy pod && (1 <? length (containers pod))%nat = true ->
  podBlock H args podName podNamespace pod g =
    let inject := annotations pod !! injectAnnotationKey g in
    let status := annotations pod !! sidecarStatusKey g in
    let o := if injectExcludes inject || sidecarExcludes status
             then (mret tt : M unit) g else redirectBlock H args pod g in
    {| returned := returned o; globalsAfter := globalsAfter o;
       trace := Log InfoLevel
                  (MsgCheckingAnnotations (ContainerID args) (Netns args)
                     podName podNamespace (ports pod) (annotations pod))
                :: injectTrace podName inject ++ sidecarTrace podName status
                ++ trace o |}.
Proof.
  intros Hgate. unfold podBlock. rewrite Hgate.
  unfold mbind, M_bind, logInfo, emit. cbn [returned globalsAfter trace].
  rewrite injectCheck_run. cbn [returned globalsAfter trace].
  rewrite sidecarCheck_run. cbn [returned globalsAfter trace].
  destruct (injectExcludes (annotations pod !! injectAnnotationKey g));
    destruct (annotations pod !! sidecarStatusKey g) as [st|]; reflexivity.
Qed.

(** Under [ReachesPod], [cmdAdd] is the pod prefix, then lines 198-234, then
    lines 242-251 unless the pod block returned an error. *)
Lemma cmdAdd_pod args conf k8sArgs pod g :
  ReachesPod H args conf k8sArgs pod ->
  exists lvl,
    let o := podBlock H args (K8S_POD_NAME k8sArgs) (K8S_POD_NAMESPACE k8sArgs)
               pod (assigned conf g) in
    cmdAdd H args g =
      {| returned := match returned o with
                     | Ok _ => printReturned H conf
                     | Err err => Err err
                     end;
         globalsAfter := globalsAfter o;
         trace := podPrefix lvl args conf k8sArgs pod ++ trace o ++
                  match returned o with
                  | Ok _ => [CallPrintResult (resultOf H conf) (CNIVersion conf)]
                  | Err _ => []
                  end |}.
Proof.
  intros (Hparses & Hns & Hname & Hexcl & client & Hclient & Hpod).
  destruct (cmdAdd_run args conf k8sArgs g Hparses) as [lvl Hrun].
  exists lvl. simpl in *. rewrite Hrun. clear Hrun.
  unfold k8sBlock, printBlock, printReturned.
  rewrite (eqb_empty_false _ Hns), (eqb_empty_false _ Hname). simpl.
  destruct (excludeLoop (K8S_POD_NAMESPACE k8sArgs)
              (ExcludeNamespaces (Kubernetes_ conf))) eqn:Hloop;
    [apply excludeLoop_In in Hloop; contradiction|].
  simpl. unfold mbind, M_bind, logInfo, logDebug, logError, emit. simpl.
  rewrite Hclient. simpl. rewrite Hpod. simpl.
  destruct (returned (podBlock H args (K8S_POD_NAME k8sArgs)
                        (K8S_POD_NAMESPACE k8sArgs) pod (assigned conf g)));
    simpl; [|rewrite app_nil_r; reflexivity].
  destruct (types_PrintResult H (resultOf H conf) (CNIVersion conf)); simpl;
    reflexivity.
Qed.

(** Everything the statements below observe of a run that reaches the
    pod data. *)
Lemma cmdAdd_pod_summary args conf k8sArgs pod g :
  ReachesPod H args conf k8sArgs pod ->
  let o := cmdAdd H args g in
  verdicts (trace o) = podVerdicts g pod /\
  countEv isMetadataQuery (trace o) = 2 /\
  countEv isNewRedirectCall (trace o) = (if allows g pod then 1 else 0) /\
  List.filter isExecutorCall (trace o) =
    (if allows g pod then redirectExecutorCalls H args g pod else []) /\
  countEv isAnnotationLog (trace o) =
    (if passesLine198 pod
     then 1 + length (injectTrace "" (annotations pod !! injectAnnotationKey g))
          + length (sidecarTrace "" (annotations pod !! sidecarStatusKey g))
     else 0) /\
  returned o =
    (if allows g pod
     then match redirectReturned H args g pod with
          | Ok _ => printReturned H conf
          | Err err => Err err
          end
     else printReturned H conf) /\
  countEv isPrintResult (trace o) =
    (if allows g pod
     then match redirectReturned H args g pod with Ok _ => 1 | Err _ => 0 end
     else 1) /\
  globalsAfter o = assigned conf g.
Proof.
  intros Hreach o. subst o.
  destruct (cmdAdd_pod args conf k8sArgs pod g Hreach) as [lvl Hrun].
  cbv zeta in Hrun. rewrite Hrun. clear Hrun. cbn [returned globalsAfter trace].
  destruct (assigned_keys conf g) as (Hik & Hsk & Hhook).
  unfold podVerdicts, allows, redirectReturned, redirectExecutorCalls.
  destruct (passesLine198 pod) eqn:Hgate; unfold passesLine198 in Hgate.
  - rewrite (podBlock_enter _ _ _ _ _ Hgate). rewrite Hik, Hsk.
    cbn [returned globalsAfter trace].
    destruct (annotations pod !! injectAnnotationKey g) as [val|];
      [destruct (ParseBool val) as [[|]|] eqn:Hparse|];
      destruct (annotations pod !! sidecarStatusKey g) as [st|];
      unfold injectTrace, injectExcludes, sidecarTrace;
      cbn [mbind option_bind]; rewrite ?Hparse;
      cbn [sidecarExcludes orb andb negb];
      try rewrite redirectBlock_run; rewrite ?Hhook;
      try (destruct (NewRedirect H (proxyUID pod) (proxyGID pod) (ports pod)
                       (annotations pod)) as [redirect|err];
           [destruct (setupRedirect g) as [hook|];
            [|destruct (doRedirect H redirect (Netns args))]|]);
      cbn [returned globalsAfter trace mret M_ret];
      (split; [rewrite verdicts_around by reflexivity; reflexivity |]);
      repeat split; reflexivity.
  - rewrite (podBlock_skip _ _ _ _ _ Hgate).
    cbn [returned globalsAfter trace andb].
    split; [rewrite verdicts_around by reflexivity; reflexivity |].
    repeat split; reflexivity.
Qed.

End Runs.

(** ** The decision of lines 198-222 *)

Lemma passesLine198_true pod :
  hasProxy pod = true -> 2 <= length (containers pod) ->
  passesLine198 pod = true.
Proof.
  intros Hproxy Hlen. unfold passesLine198. rewrite Hproxy. simpl.
  apply Nat.ltb_lt. lia.
Qed.

Lemma passesLine198_false pod :
  hasProxy pod = false \/ length (containers pod) <= 1 ->
  passesLine198 pod = false.
Proof.
  intros [Hproxy | Hlen]; unfold passesLine198.
  - by rewrite Hproxy.
  - apply andb_false_iff. right. apply Nat.ltb_ge. lia.
Qed.

Lemma podVerdicts_allow g pod :
  podVerdicts g pod = [Allow] <-> allows g pod = true.
Proof.
  unfold podVerdicts, allows.
  destruct (passesLine198 pod);
    destruct (injectExcludes (annotations pod !! injectAnnotationKey g));
    destruct (sidecarExcludes (annotations pod !! sidecarStatusKey g));
    simpl; split; intros Heq; try reflexivity; discriminate.
Qed.

(** The specification's first-match evaluator gives the first verdict the
    code announces. *)
Lemma first_verdict_is_spec g pod :
  hd_error (podVerdicts g pod) = Some (EligibilityEvaluator_spec g pod).
Proof.
  unfold podVerdicts, allows, EligibilityEvaluator_spec, passesLine198,
    injectExcludes, sidecarExcludes.
  destruct (hasProxy pod); simpl; [|reflexivity].
  destruct (1 <? length (containers pod))%nat; simpl; [|reflexivity].
  destruct (annotations pod !! injectAnnotationKey g ≫= ParseBool) as [[|]|];
    destruct (annotations pod !! sidecarStatusKey g); reflexivity.
Qed.

Lemma ParseBool_false_literals val :
  ParseBool val = Some false <->
  In val ["0"; "f"; "F"; "false"; "FALSE"; "False"].
Proof.
  unfold ParseBool. split.
  - repeat match goal with
           | |- context [String.eqb val ?s] =>
               destruct (String.eqb_spec val s) as [->|?]
           end; simpl; intros Heq; try discriminate; tauto.
  - simpl. intros Hin.
    repeat match goal with
           | Hin : _ \/ _ |- _ => destruct Hin as [<-|Hin]; [reflexivity|]
           end.
    contradiction.
Qed.

Lemma ParseBool_true_literals val :
  ParseBool val = Some true <->
  In val ["1"; "t"; "T"; "true"; "TRUE"; "True"].
Proof.
  unfold ParseBool. split.
  - repeat match goal with
           | |- context [String.eqb val ?s] =>
               destruct (String.eqb_spec val s) as [->|?]
           end; simpl; intros Heq; try discriminate; tauto.
  - simpl. intros Hin.
    repeat match goal with
           | Hin : _ \/ _ |- _ => destruct Hin as [<-|Hin]; [reflexivity|]
           end.
    contradiction.
Qed.

Ltac sample_reaches :=
  repeat split;
  [ discriminate | discriminate
  | simpl; intros [Heq | []]; discriminate
  | exists tt; split; reflexivity ].

(** ** Claims about an eligible pod *)

(** C1 (as amended).  For every pod with at least two containers, a proxy,
    the inject annotation absent or equal to ["true"], and the sidecar status
    annotation present, the only verdict of the run is [Allow] (which is also
    the verdict of the specification's evaluator), and [NewRedirect] is
    called exactly once; the executor runs exactly once when [NewRedirect]
    returns a redirect and not at all when it returns an error. *)
Theorem cmdAdd_allow_attempts_redirect (H : Host) args conf k8sArgs pod g :
  ReachesPod H args conf k8sArgs pod ->
  hasProxy pod = true ->
  2 <= length (containers pod) ->
  annotations pod !! injectAnnotationKey g = None \/
    annotations pod !! injectAnnotationKey g = Some "true" ->
  is_Some (annotations pod !! sidecarStatusKey g) ->
  let o := cmdAdd H args g in
  verdicts (trace o) = [Allow] /\
  EligibilityEvaluator_spec g pod = Allow /\
  countEv isNewRedirectCall (trace o) = 1 /\
  countEv isExecutorCall (trace o) =
    match NewRedirect H (proxyUID pod) (proxyGID pod) (ports pod)
            (annotations pod) with
    | Ok _ => 1
    | Err _ => 0
    end.
Proof.
  intros Hreach Hproxy Hlen Hinject [st Hstatus] o.
  destruct (cmdAdd_pod_summary H args conf k8sArgs pod g Hreach)
    as (Hv & _ & Hnew & Hexec & _).
  fold o in Hv, Hnew, Hexec. clearbody o.
  pose proof (first_verdict_is_spec g pod) as Hspec.
  assert (Hallow : allows g pod = true).
  { unfold allows. rewrite (passesLine198_true pod Hproxy Hlen), Hstatus.
    destruct Hinject as [-> | ->]; reflexivity. }
  assert (Hpv : podVerdicts g pod = [Allow]) by by apply podVerdicts_allow.
  rewrite Hpv in Hv, Hspec. injection Hspec as Hspec.
  rewrite Hallow in Hnew, Hexec.
  unfold countEv. rewrite Hexec. unfold redirectExecutorCalls.
  repeat split; try done.
  destruct (NewRedirect H (proxyUID pod) (proxyGID pod) (ports pod)
              (annotations pod)); [destruct (setupRedirect g)|]; reflexivity.
Qed.

Lemma cmdAdd_allow_attempts_redirect_witness :
  verdicts (trace (cmdAdd Sample.hostAllow Sample.args initGlobals)) = [Allow] /\
  EligibilityEvaluator_spec initGlobals Sample.podAllow = Allow /\
  countEv isNewRedirectCall
    (trace (cmdAdd Sample.hostAllow Sample.args initGlobals)) = 1 /\
  countEv isExecutorCall
    (trace (cmdAdd Sample.hostAllow Sample.args initGlobals)) = 1.
Proof.
  apply (cmdAdd_allow_attempts_redirect Sample.hostAllow Sample.args
           Sample.plainConf Sample.web Sample.podAllow initGlobals).
  - sample_reaches.
  - reflexivity.
  - simpl; lia.
  - left. vm_compute. reflexivity.
  - exists "{}". vm_compute. reflexivity.
Defined.

(** C1, the statement as written fails: an eligible pod that declares no
    port gets the verdict [Allow], but no redirect is built and the executor
    never runs. *)
Lemma cmdAdd_allow_empty_ports_no_executor :
  ReachesPod Sample.hostNoPorts Sample.args Sample.plainConf Sample.web
    Sample.podNoPorts /\
  hasProxy Sample.podNoPorts = true /\
  2 <= length (containers Sample.podNoPorts) /\
  annotations Sample.podNoPorts !! injectAnnotationKey initGlobals = None /\
  is_Some (annotations Sample.podNoPorts !! sidecarStatusKey initGlobals) /\
  verdicts (trace (cmdAdd Sample.hostNoPorts Sample.args initGlobals)) = [Allow] /\
  NewRedirect Sample.hostNoPorts (proxyUID Sample.podNoPorts)
    (proxyGID Sample.podNoPorts) (ports Sample.podNoPorts)
    (annotations Sample.podNoPorts) = Err InvalidRedirectParameters /\
  countEv isExecutorCall
    (trace (cmdAdd Sample.hostNoPorts Sample.args initGlobals)) = 0 /\
  countEv isExecutorCall
    (trace (cmdAdd Sample.hostNoPorts Sample.args initGlobals)) <> 1.
Proof.
  split; [sample_reaches|].
  split; [reflexivity|].
  split; [simpl; lia|].
  split; [vm_compute; reflexivity|].
  split; [exists "{}"; vm_compute; reflexivity|].
  split; [vm_compute; reflexivity|].
  split; [reflexivity|].
  split; [vm_compute; reflexivity|].
  vm_compute. discriminate.
Qed.

(** C2.  For every pod without a proxy, or whose container count is not
    strictly greater than 1, whatever its annotations: the verdict is
    [ExcludedNoProxyOrSingleContainer] (for the run and for the
    specification's evaluator), lines 208-220 never read the annotations,
    [NewRedirect] and the executor are never called, and the invocation ends
    with what printing the result returns. *)
Theorem cmdAdd_no_proxy_or_single_container (H : Host) args conf k8sArgs pod g :
  ReachesPod H args conf k8sArgs pod ->
  hasProxy pod = false \/ ~ (1 < length (containers pod)) ->
  let o := cmdAdd H args g in
  verdicts (trace o) = [ExcludedNoProxyOrSingleContainer] /\
  EligibilityEvaluator_spec g pod = ExcludedNoProxyOrSingleContainer /\
  countEv isAnnotationLog (trace o) = 0 /\
  countEv isNewRedirectCall (trace o) = 0 /\
  countEv isExecutorCall (trace o) = 0 /\
  returned o = printReturned H conf.
Proof.
  intros Hreach Hcond o.
  destruct (cmdAdd_pod_summary H args conf k8sArgs pod g Hreach)
    as (Hv & _ & Hnew & Hexec & Hann & Hret & _).
  fold o in Hv, Hnew, Hexec, Hann, Hret. clearbody o.
  pose proof (first_verdict_is_spec g pod) as Hspec.
  assert (Hgate : passesLine198 pod = false).
  { apply passesLine198_false. destruct Hcond; [left | right]; [done | lia]. }
  unfold podVerdicts in Hv, Hspec. unfold allows in Hnew, Hexec, Hret.
  rewrite Hgate in *. simpl in *. injection Hspec as Hspec.
  unfold countEv. rewrite Hexec. done.
Qed.

Lemma cmdAdd_no_proxy_or_single_container_witness :
  verdicts (trace (cmdAdd Sample.hostSingle Sample.args initGlobals))
    = [ExcludedNoProxyOrSingleContainer] /\
  EligibilityEvaluator_spec initGlobals Sample.podSingle
    = ExcludedNoProxyOrSingleContainer /\
  countEv isAnnotationLog
    (trace (cmdAdd Sample.hostSingle Sample.args initGlobals)) = 0 /\
  countEv isNewRedirectCall
    (trace (cmdAdd Sample.hostSingle Sample.args initGlobals)) = 0 /\
  countEv isExecutorCall
    (trace (cmdAdd Sample.hostSingle Sample.args initGlobals)) = 0 /\
  returned (cmdAdd Sample.hostSingle Sample.args initGlobals) = Ok tt.
Proof.
  apply (cmdAdd_no_proxy_or_single_container Sample.hostSingle Sample.args
           Sample.plainConf Sample.web Sample.podSingle initGlobals).
  - sample_reaches.
  - right. simpl. lia.
Defined.

(** C3 (as amended).  Line 198 is checked first and, when it fails, no
    annotation is read (see C2).  Past it, both annotation rules are always
    evaluated, in order: for every pod with at least two containers and a
    proxy whose inject annotation parses as [false], the first verdict is
    [ExcludedByInjectAnnotation], which is the verdict of the specification's
    evaluator; [ExcludedMissingSidecarStatus] follows it exactly when the
    status annotation is absent; [NewRedirect] and the executor are never
    called and the invocation ends with what printing the result returns. *)
Theorem cmdAdd_inject_false_excludes (H : Host) args conf k8sArgs pod g val :
  ReachesPod H args conf k8sArgs pod ->
  hasProxy pod = true ->
  2 <= length (containers pod) ->
  annotations pod !! injectAnnotationKey g = Some val ->
  ParseBool val = Some false ->
  let o := cmdAdd H args g in
  verdicts (trace o) =
    ExcludedByInjectAnnotation ::
    match annotations pod !! sidecarStatusKey g with
    | Some _ => []
    | None => [ExcludedMissingSidecarStatus]
    end /\
  EligibilityEvaluator_spec g pod = ExcludedByInjectAnnotation /\
  countEv isNewRedirectCall (trace o) = 0 /\
  countEv isExecutorCall (trace o) = 0 /\
  returned o = printReturned H conf.
Proof.
  intros Hreach Hproxy Hlen Hinject Hparse o.
  destruct (cmdAdd_pod_summary H args conf k8sArgs pod g Hreach)
    as (Hv & _ & Hnew & Hexec & _ & Hret & _).
  fold o in Hv, Hnew, Hexec, Hret. clearbody o.
  pose proof (first_verdict_is_spec g pod) as Hspec.
  unfold podVerdicts in Hv, Hspec. unfold allows in *.
  rewrite (passesLine198_true pod Hproxy Hlen), Hinject in *.
  unfold injectExcludes in *. simpl in *. rewrite Hparse in *. simpl in *.
  injection Hspec as Hspec.
  unfold countEv. rewrite Hexec, Hv.
  destruct (annotations pod !! sidecarStatusKey g); done.
Qed.

Lemma cmdAdd_inject_false_excludes_witness :
  verdicts (trace (cmdAdd Sample.hostShortFalse Sample.args initGlobals))
    = [ExcludedByInjectAnnotation] /\
  EligibilityEvaluator_spec initGlobals Sample.podShortFalse
    = ExcludedByInjectAnnotation /\
  countEv isNewRedirectCall
    (trace (cmdAdd Sample.hostShortFalse Sample.args initGlobals)) = 0 /\
  countEv isExecutorCall
    (trace (cmdAdd Sample.hostShortFalse Sample.args initGlobals)) = 0 /\
  returned (cmdAdd Sample.hostShortFalse Sample.args initGlobals) = Ok tt.
Proof.
  apply (cmdAdd_inject_false_excludes Sample.hostShortFalse Sample.args
           Sample.plainConf Sample.web Sample.podShortFalse initGlobals "F").
  - sample_reaches.
  - reflexivity.
  - simpl; lia.
  - vm_compute. reflexivity.
  - reflexivity.
Defined.

(** C3, the statement as written fails: with the inject annotation ["false"]
    and no status annotation, the rule of line 217 is still evaluated after
    line 213 has excluded the pod, and the run reports both verdicts, not the
    single one of a first-match evaluation. *)
Lemma cmdAdd_inject_false_still_checks_status :
  ReachesPod Sample.hostOptedOut Sample.args Sample.plainConf Sample.web
    Sample.podOptedOut /\
  hasProxy Sample.podOptedOut = true /\
  2 <= length (containers Sample.podOptedOut) /\
  annotations Sample.podOptedOut !! injectAnnotationKey initGlobals
    = Some "false" /\
  ParseBool "false" = Some false /\
  annotations Sample.podOptedOut !! sidecarStatusKey initGlobals = None /\
  EligibilityEvaluator_spec initGlobals Sample.podOptedOut
    = ExcludedByInjectAnnotation /\
  In (Log InfoLevel (MsgExcludedNoSidecar "web"))
    (trace (cmdAdd Sample.hostOptedOut Sample.args initGlobals)) /\
  verdicts (trace (cmdAdd Sample.hostOptedOut Sample.args initGlobals))
    = [ExcludedByInjectAnnotation; ExcludedMissingSidecarStatus] /\
  verdicts (trace (cmdAdd Sample.hostOptedOut Sample.args initGlobals))
    <> [EligibilityEvaluator_spec initGlobals Sample.podOptedOut].
Proof.
  split; [sample_reaches|].
  split; [reflexivity|].
  split; [simpl; lia|].
  split; [vm_compute; reflexivity|].
  split; [reflexivity|].
  split; [vm_compute; reflexivity|].
  split; [vm_compute; reflexivity|].
  split; [vm_compute; tauto|].
  split; [vm_compute; reflexivity|].
  vm_compute. discriminate.
Qed.

(** C4.  For every pod with at least two containers and a proxy whose
    inject annotation is present but does not parse as a boolean, the
    annotation does not exclude the pod: [ExcludedByInjectAnnotation] is not
    among the verdicts, whatever the status annotation; and with the status
    annotation present the only verdict is [Allow] and [NewRedirect] is
    called. *)
Theorem cmdAdd_unparsable_inject_allows (H : Host) args conf k8sArgs pod g val :
  ReachesPod H args conf k8sArgs pod ->
  hasProxy pod = true ->
  2 <= length (containers pod) ->
  annotations pod !! injectAnnotationKey g = Some val ->
  ParseBool val = None ->
  let o := cmdAdd H args g in
  ~ In ExcludedByInjectAnnotation (verdicts (trace o)) /\
  (is_Some (annotations pod !! sidecarStatusKey g) ->
   verdicts (trace o) = [Allow] /\
   EligibilityEvaluator_spec g pod = Allow /\
   countEv isNewRedirectCall (trace o) = 1).
Proof.
  intros Hreach Hproxy Hlen Hinject Hparse o.
  destruct (cmdAdd_pod_summary H args conf k8sArgs pod g Hreach)
    as (Hv & _ & Hnew & _).
  fold o in Hv, Hnew. clearbody o.
  pose proof (first_verdict_is_spec g pod) as Hspec.
  assert (Hinj : injectExcludes (annotations pod !! injectAnnotationKey g)
                 = false).
  { unfold injectExcludes. rewrite Hinject. simpl. by rewrite Hparse. }
  split.
  - rewrite Hv. unfold podVerdicts, allows.
    rewrite (passesLine198_true pod Hproxy Hlen), Hinj.
    destruct (sidecarExcludes (annotations pod !! sidecarStatusKey g)); simpl;
      intros [Heq | []]; discriminate.
  - intros [st Hstatus].
    assert (Hallow : allows g pod = true).
    { unfold allows.
      by rewrite (passesLine198_true pod Hproxy Hlen), Hstatus, Hinj. }
    assert (Hpv : podVerdicts g pod = [Allow]) by by apply podVerdicts_allow.
    rewrite Hpv in Hv, Hspec. injection Hspec as Hspec.
    rewrite Hallow in Hnew. done.
Qed.

Lemma cmdAdd_unparsable_inject_allows_witness :
  verdicts (trace (cmdAdd Sample.hostMalformed Sample.args initGlobals))
    = [Allow] /\
  EligibilityEvaluator_spec initGlobals Sample.podMalformed = Allow /\
  countEv isNewRedirectCall
    (trace (cmdAdd Sample.hostMalformed Sample.args initGlobals)) = 1.
Proof.
  apply (proj2 (cmdAdd_unparsable_inject_allows Sample.hostMalformed
                  Sample.args Sample.plainConf Sample.web Sample.podMalformed
                  initGlobals "not-a-bool"
                  ltac:(sample_reaches) ltac:(reflexivity) ltac:(simpl; lia)
                  ltac:(vm_compute; reflexivity) ltac:(reflexivity))).
  exists "{}". vm_compute. reflexivity.
Defined.

(** C10.  The inject annotation is read through [strconv.ParseBool]: each of
    ["0"], ["f"], ["F"], ["false"], ["FALSE"], ["False"] parses as [false]
    and excludes the pod (first verdict [ExcludedByInjectAnnotation], no
    redirect built, no executor run); each of ["1"], ["t"], ["T"], ["true"],
    ["TRUE"], ["True"] parses as [true] and does not exclude it (the verdict
    is then decided by the status annotation alone). *)
Theorem cmdAdd_inject_ParseBool_literals (H : Host) args conf k8sArgs pod g val :
  ReachesPod H args conf k8sArgs pod ->
  hasProxy pod = true ->
  2 <= length (containers pod) ->
  annotations pod !! injectAnnotationKey g = Some val ->
  let o := cmdAdd H args g in
  (In val ["0"; "f"; "F"; "false"; "FALSE"; "False"] ->
   ParseBool val = Some false /\
   hd_error (verdicts (trace o)) = Some ExcludedByInjectAnnotation /\
   countEv isNewRedirectCall (trace o) = 0 /\
   countEv isExecutorCall (trace o) = 0) /\
  (In val ["1"; "t"; "T"; "true"; "TRUE"; "True"] ->
   ParseBool val = Some true /\
   ~ In ExcludedByInjectAnnotation (verdicts (trace o)) /\
   verdicts (trace o) =
     match annotations pod !! sidecarStatusKey g with
     | Some _ => [Allow]
     | None => [ExcludedMissingSidecarStatus]
     end).
Proof.
  intros Hreach Hproxy Hlen Hinject o.
  destruct (cmdAdd_pod_summary H args conf k8sArgs pod g Hreach)
    as (Hv & _ & Hnew & Hexec & _).
  fold o in Hv, Hnew, Hexec. clearbody o.
  unfold podVerdicts in Hv. unfold allows in *.
  rewrite (passesLine198_true pod Hproxy Hlen), Hinject in *.
  unfold injectExcludes in *. simpl in *.
  split; intros Hlit.
  - apply ParseBool_false_literals in Hlit. rewrite Hlit in *. simpl in *.
    unfold countEv. rewrite Hexec, Hv. done.
  - apply ParseBool_true_literals in Hlit. rewrite Hlit in *. simpl in *.
    rewrite Hv.
    destruct (annotations pod !! sidecarStatusKey g); simpl;
      (split; [reflexivity | split; [intros [Heq | []]; discriminate | reflexivity]]).
Qed.

Lemma cmdAdd_inject_ParseBool_literals_witness :
  ParseBool "F" = Some false /\
  hd_error (verdicts (trace (cmdAdd Sample.hostShortFalse Sample.args initGlobals)))
    = Some ExcludedByInjectAnnotation /\
  countEv isNewRedirectCall
    (trace (cmdAdd Sample.hostShortFalse Sample.args initGlobals)) = 0 /\
  countEv isExecutorCall
    (trace (cmdAdd Sample.hostShortFalse Sample.args initGlobals)) = 0.
Proof.
  apply (proj1 (cmdAdd_inject_ParseBool_literals Sample.hostShortFalse
                  Sample.args Sample.plainConf Sample.web Sample.podShortFalse
                  initGlobals "F"
                  ltac:(sample_reaches) ltac:(reflexivity) ltac:(simpl; lia)
                  ltac:(vm_compute; reflexivity))).
  simpl. tauto.
Defined.

(** ** Claims about the redirect stage *)

(** C7.  Whenever the verdict of the run is [Allow] and [NewRedirect]
    returns an error, [cmdAdd] returns that very error: the executor is not
    run and no result is printed. *)
Theorem cmdAdd_redirect_failure_is_fatal (H : Host) args conf k8sArgs pod g err :
  ReachesPod H args conf k8sArgs pod ->
  verdicts (trace (cmdAdd H args g)) = [Allow] ->
  NewRedirect H (proxyUID pod) (proxyGID pod) (ports pod) (annotations pod)
    = Err err ->
  let o := cmdAdd H args g in
  returned o = Err err /\
  returned o <> Ok tt /\
  countEv isExecutorCall (trace o) = 0 /\
  countEv isPrintResult (trace o) = 0.
Proof.
  intros Hreach Hallow Hnewr o.
  destruct (cmdAdd_pod_summary H args conf k8sArgs pod g Hreach)
    as (Hv & _ & _ & Hexec & _ & Hret & Hprint & _).
  fold o in Hv, Hexec, Hret, Hprint, Hallow. clearbody o.
  rewrite Hv in Hallow. apply podVerdicts_allow in Hallow.
  rewrite Hallow in *.
  unfold redirectReturned, redirectExecutorCalls in *. rewrite Hnewr in *.
  unfold countEv. rewrite Hexec, Hret. done.
Qed.

Lemma cmdAdd_redirect_failure_is_fatal_witness :
  returned (cmdAdd Sample.hostNoPorts Sample.args initGlobals)
    = Err InvalidRedirectParameters /\
  returned (cmdAdd Sample.hostNoPorts Sample.args initGlobals) <> Ok tt /\
  countEv isExecutorCall
    (trace (cmdAdd Sample.hostNoPorts Sample.args initGlobals)) = 0 /\
  countEv isPrintResult
    (trace (cmdAdd Sample.hostNoPorts Sample.args initGlobals)) = 0.
Proof.
  apply (cmdAdd_redirect_failure_is_fatal Sample.hostNoPorts Sample.args
           Sample.plainConf Sample.web Sample.podNoPorts initGlobals).
  - sample_reaches.
  - vm_compute. reflexivity.
  - reflexivity.
Defined.

(** C8 (as amended).  When the verdict of the run is [Allow] and
    [NewRedirect] returned a redirect, exactly one executor runs.  Without an
    override hook it is [doRedirect]: its error is returned by [cmdAdd] as it
    is, and when it succeeds [cmdAdd] returns what printing the result
    returns.  With the hook [setupRedirect] installed, the hook runs instead
    and its result is dropped: [cmdAdd] returns what printing the result
    returns, whatever the hook returned. *)
Theorem cmdAdd_executor_result (H : Host) args conf k8sArgs pod g redirect :
  ReachesPod H args conf k8sArgs pod ->
  verdicts (trace (cmdAdd H args g)) = [Allow] ->
  NewRedirect H (proxyUID pod) (proxyGID pod) (ports pod) (annotations pod)
    = Ok redirect ->
  let o := cmdAdd H args g in
  countEv isExecutorCall (trace o) = 1 /\
  match setupRedirect g with
  | None =>
      List.filter isExecutorCall (trace o)
        = [CallDoRedirect redirect (Netns args)] /\
      returned o = match doRedirect H redirect (Netns args) with
                   | Some err => Err err
                   | None => printReturned H conf
                   end
  | Some _ =>
      List.filter isExecutorCall (trace o)
        = [CallSetupRedirect (Netns args) (ports pod)] /\
      returned o = printReturned H conf
  end.
Proof.
  intros Hreach Hallow Hnewr o.
  destruct (cmdAdd_pod_summary H args conf k8sArgs pod g Hreach)
    as (Hv & _ & _ & Hexec & _ & Hret & _).
  fold o in Hv, Hexec, Hret, Hallow. clearbody o.
  rewrite Hv in Hallow. apply podVerdicts_allow in Hallow.
  rewrite Hallow in *.
  unfold redirectReturned, redirectExecutorCalls in *. rewrite Hnewr in *.
  unfold countEv. rewrite Hexec, Hret.
  destruct (setupRedirect g); [done|].
  destruct (doRedirect H redirect (Netns args)); done.
Qed.

Lemma cmdAdd_executor_result_witness :
  countEv isExecutorCall
    (trace (cmdAdd Sample.hostExecFails Sample.args initGlobals)) = 1 /\
  List.filter isExecutorCall
    (trace (cmdAdd Sample.hostExecFails Sample.args initGlobals))
    = [CallDoRedirect
         {| redir_proxyUID := 1337; redir_proxyGID := 1337;
            redir_ports := ["9080"]; redir_annotations := Sample.status |}
         (Netns Sample.args)] /\
  returned (cmdAdd Sample.hostExecFails Sample.args initGlobals)
    = Err "iptables failed".
Proof.
  apply (cmdAdd_executor_result Sample.hostExecFails Sample.args
           Sample.plainConf Sample.web Sample.podAllow initGlobals).
  - sample_reaches.
  - vm_compute. reflexivity.
  - reflexivity.
Defined.

(** C8, the statement as written fails for the override executor: the hook
    is the one executor that runs, it returns an error, and [cmdAdd] still
    returns success. *)
Lemma cmdAdd_hook_error_discarded :
  ReachesPod Sample.hostAllow Sample.args Sample.plainConf Sample.web
    Sample.podAllow /\
  verdicts (trace (cmdAdd Sample.hostAllow Sample.args Sample.hookedGlobals))
    = [Allow] /\
  List.filter isExecutorCall
    (trace (cmdAdd Sample.hostAllow Sample.args Sample.hookedGlobals))
    = [CallSetupRedirect (Netns Sample.args) (ports Sample.podAllow)] /\
  (setupRedirect Sample.hookedGlobals ≫=
     λ hook, hook (Netns Sample.args) (ports Sample.podAllow))
    = Some "hook failed" /\
  returned (cmdAdd Sample.hostAllow Sample.args Sample.hookedGlobals) = Ok tt.
Proof.
  split; [sample_reaches|].
  split; [vm_compute; reflexivity|].
  split; [vm_compute; reflexivity|].
  split; reflexivity.
Qed.

(** The builder of the specification does succeed: with at least one port
    and a non-negative identity it returns the identity, the ports in the
    same order and the annotations. *)
Lemma NewRedirect_spec_ok (uid gid : Z) (p : string) (ps : list string)
    (anns : gmap string string) :
  (0 <= uid)%Z -> (0 <= gid)%Z ->
  NewRedirect_spec uid gid (p :: ps) anns =
    Ok {| redir_proxyUID := uid; redir_proxyGID := gid;
          redir_ports := p :: ps; redir_annotations := anns |}.
Proof.
  intros Huid Hgid. unfold NewRedirect_spec.
  destruct (Z.ltb_spec uid 0); [lia|]. destruct (Z.ltb_spec gid 0); [lia|].
  reflexivity.
Qed.

(** C6.  The redirect builder of the specification fails with
    [InvalidRedirectParameters] on an empty port list, whatever the proxy
    identity and the annotations. *)
Theorem NewRedirect_spec_empty_ports (uid gid : Z) (anns : gmap string string) :
  NewRedirect_spec uid gid [] anns = Err InvalidRedirectParameters.
Proof. reflexivity. Qed.

(** ** Claims about the namespace gate *)



(** ** Claims about the package-level variables *)

Lemma podBlock_globals (H : Host) args podName podNamespace pod g :
  globalsAfter (podBlock H args podName podNamespace pod g) = g.
Proof.
  destruct (hasProxy pod && (1 <? length (containers pod))%nat) eqn:Hgate.
  - rewrite (podBlock_enter H _ _ _ _ _ Hgate). cbn [globalsAfter].
    destruct (injectExcludes (annotations pod !! injectAnnotationKey g)
              || sidecarExcludes (annotations pod !! sidecarStatusKey g));
      [reflexivity|].
    rewrite redirectBlock_run. cbv zeta.
    destruct (NewRedirect H (proxyUID pod) (proxyGID pod) (ports pod)
                (annotations pod)); [destruct (setupRedirect g)|]; reflexivity.
  - by rewrite (podBlock_skip H _ _ _ _ _ Hgate).
Qed.

Lemma k8sBlock_globals (H : Host) args conf podName podNamespace g :
  globalsAfter (k8sBlock H args conf podName podNamespace g) = g.
Proof.
  unfold k8sBlock.
  destruct (negb (String.eqb podNamespace "") && negb (String.eqb podName ""));
    [|reflexivity].
  destruct (excludeLoop podNamespace (ExcludeNamespaces (Kubernetes_ conf)));
    [reflexivity|].
  unfold mbind, M_bind, logInfo, logDebug, logError, emit.
  cbn [returned globalsAfter trace negb].
  destruct (newKubeClient H conf) as [client|err]; [|reflexivity].
  cbn [returned globalsAfter trace].
  destruct (getKubePodInfo H client podName podNamespace) as [pod|err];
    [|reflexivity].
  cbn [returned globalsAfter trace].
  pose proof (podBlock_globals H args podName podNamespace pod g) as Hpod.
  destruct (returned (podBlock H args podName podNamespace pod g));
    cbn [globalsAfter]; exact Hpod.
Qed.

Lemma printBlock_globals (H : Host) conf g :
  globalsAfter (printBlock H conf g) = g.
Proof.
  unfold printBlock, mbind, M_bind, emit. cbn [returned globalsAfter trace].
  destruct (types_PrintResult H (resultOf H conf) (CNIVersion conf));
    reflexivity.
Qed.

(** C9 (as amended).  [cmdAdd] never writes [injectAnnotationKey],
    [sidecarStatusKey] or the hook [setupRedirect].  It does write the other
    two package-level variables: once the configuration and the CNI arguments
    are decoded, [nsSetupBinDir] becomes the configured [CniBinDir] and
    [nsSetupProg] the configured [IptablesScript], each only when the
    configured value is not empty; otherwise, and whenever decoding fails,
    the variable keeps the value it had when the invocation started. *)
Theorem cmdAdd_globals (H : Host) args g :
  let o := cmdAdd H args g in
  injectAnnotationKey (globalsAfter o) = injectAnnotationKey g /\
  sidecarStatusKey (globalsAfter o) = sidecarStatusKey g /\
  setupRedirect (globalsAfter o) = setupRedirect g /\
  nsSetupBinDir (globalsAfter o) =
    match parseConfig H (StdinData args), types_LoadArgs H (Args args) with
    | Ok conf, Ok _ =>
        if String.eqb (CniBinDir (Kubernetes_ conf)) "" then nsSetupBinDir g
        else CniBinDir (Kubernetes_ conf)
    | _, _ => nsSetupBinDir g
    end /\
  nsSetupProg (globalsAfter o) =
    match parseConfig H (StdinData args), types_LoadArgs H (Args args) with
    | Ok conf, Ok _ =>
        if String.eqb (IptablesScript (Kubernetes_ conf)) "" then nsSetupProg g
        else IptablesScript (Kubernetes_ conf)
    | _, _ => nsSetupProg g
    end.
Proof.
  intros o. subst o.
  destruct (parseConfig H (StdinData args)) as [conf|err] eqn:Hparse.
  - destruct (types_LoadArgs H (Args args)) as [k8sArgs|err] eqn:Hload.
    + destruct (cmdAdd_run H args conf k8sArgs g (conj Hparse Hload))
        as [lvl Hrun].
      cbv zeta in Hrun. rewrite Hrun. clear Hrun. cbn [globalsAfter].
      unfold mbind, M_bind.
      pose proof (k8sBlock_globals H args conf (K8S_POD_NAME k8sArgs)
                    (K8S_POD_NAMESPACE k8sArgs) (assigned conf g)) as Hk8s.
      destruct (returned (k8sBlock H args conf (K8S_POD_NAME k8sArgs)
                            (K8S_POD_NAMESPACE k8sArgs) (assigned conf g)));
        cbn [globalsAfter]; rewrite ?Hk8s, ?printBlock_globals;
        unfold assigned;
        destruct (String.eqb (CniBinDir (Kubernetes_ conf)) "");
        destruct (String.eqb (IptablesScript (Kubernetes_ conf)) "");
        repeat split; reflexivity.
    + destruct (ConfigureLogging_run H (LogLevel conf) g) as [lvl Hlog].
      unfold cmdAdd, mbind, M_bind, logInfo, emit.
      cbn [returned globalsAfter trace]. rewrite Hparse.
      rewrite Hlog. cbn [returned globalsAfter trace]. rewrite Hload.
      repeat split; reflexivity.
  - unfold cmdAdd, mbind, M_bind, logInfo, emit.
    cbn [returned globalsAfter trace]. rewrite Hparse.
    repeat split; reflexivity.
Qed.

(** C9, the statement as written fails: an invocation whose configuration
    names a binary directory overwrites the package-level [nsSetupBinDir],
    and an invocation that follows it in the same process, with a
    configuration that names none, starts from and keeps the overwritten
    value. *)
Lemma cmdAdd_overwrites_nsSetupBinDir :
  nsSetupBinDir initGlobals = "/opt/cni/bin" /\
  nsSetupBinDir
    (globalsAfter (cmdAdd Sample.hostCustomBin Sample.args initGlobals))
    = "/custom/bin" /\
  globalsAfter (cmdAdd Sample.hostCustomBin Sample.args initGlobals)
    <> initGlobals /\
  CniBinDir (Kubernetes_ Sample.plainConf) = "" /\
  nsSetupBinDir
    (globalsAfter
       (cmdAdd Sample.hostAllow Sample.args
          (globalsAfter (cmdAdd Sample.hostCustomBin Sample.args initGlobals))))
    = "/custom/bin".
Proof.
  split; [reflexivity|].
  split; [vm_compute; reflexivity|].
  split; [intros Heq; apply (f_equal nsSetupBinDir) in Heq;
          vm_compute in Heq; discriminate|].
  split; [reflexivity|].
  vm_compute. reflexivity.
Qed.

(** ** Every path of [cmdAdd] *)

Lemma callsOf_app (a b : list Event) : callsOf (a ++ b) = callsOf a ++ callsOf b.
Proof. unfold callsOf. apply List.filter_app. Qed.

Lemma callsOf_injectTrace podName found : callsOf (injectTrace podName found) = [].
Proof.
  unfold injectTrace. destruct found as [val|]; [|reflexivity].
  destruct (injectExcludes (Some val)); reflexivity.
Qed.

Lemma callsOf_sidecarTrace podName found :
  callsOf (sidecarTrace podName found) = [].
Proof. destruct found; reflexivity. Qed.

(** A predicate that holds of calls only sees the calls of a trace. *)
Lemma filter_callsOf (p : Event -> bool) (tr : list Event) :
  (forall e, p e = true -> isCall e = true) ->
  List.filter p (callsOf tr) = List.filter p tr.
Proof.
  intros Hsub. unfold callsOf. induction tr as [|e tr IH]; [reflexivity|].
  simpl. destruct (isCall e) eqn:Hcall; simpl.
  - by rewrite IH.
  - destruct (p e) eqn:Hp; [|exact IH].
    apply Hsub in Hp. congruence.
Qed.

Lemma In_callsOf (e : Event) (tr : list Event) :
  isCall e = true -> In e tr -> In e (callsOf tr).
Proof. intros Hcall Hin. unfold callsOf. apply List.filter_In. by split. Qed.

Lemma callKinds_callsOf (tr : list Event) :
  callKinds tr = omap kindOf (callsOf tr).
Proof.
  unfold callKinds, callsOf. induction tr as [|e tr IH]; [reflexivity|].
  destruct e; simpl; first [exact IH | f_equal; exact IH].
Qed.

Section Paths.

Context (H : Host).

Lemma cmdAdd_parse_error_run args g err :
  parseConfig H (StdinData args) = Err err ->
  cmdAdd H args g =
    {| returned := Err err; globalsAfter := g;
       trace := [Log InfoLevel MsgParsingConfig] |}.
Proof.
  intros Hparse. unfold cmdAdd, mbind, M_bind, logInfo, emit.
  cbn [returned globalsAfter trace]. rewrite Hparse. reflexivity.
Qed.

Lemma cmdAdd_load_error_run args conf g err :
  parseConfig H (StdinData args) = Ok conf ->
  types_LoadArgs H (Args args) = Err err ->
  exists lvl,
    cmdAdd H args g =
      {| returned := Err err; globalsAfter := g;
         trace := [Log InfoLevel MsgParsingConfig; SetLevel lvl; SetOutputStderr;
                   Log InfoLevel
                     (MsgConfigParsed (CNIVersion conf) (PrevResult conf))] |}.
Proof.
  intros Hparse Hload.
  destruct (ConfigureLogging_run H (LogLevel conf) g) as [lvl Hlog].
  exists lvl. unfold cmdAdd, mbind, M_bind, logInfo, emit.
  cbn [returned globalsAfter trace]. rewrite Hparse, Hlog.
  cbn [returned globalsAfter trace]. rewrite Hload. reflexivity.
Qed.

Lemma allows_assigned conf g pod : allows (assigned conf g) pod = allows g pod.
Proof.
  destruct (assigned_keys conf g) as (Hik & Hsk & _).
  unfold allows. by rewrite Hik, Hsk.
Qed.

Lemma podCalls_assigned args conf g pod :
  podCalls H args (assigned conf g) pod = podCalls H args g pod.
Proof.
  destruct (assigned_keys conf g) as (_ & _ & Hhook).
  unfold podCalls, redirectExecutorCalls. by rewrite allows_assigned, Hhook.
Qed.

Lemma podReturned_assigned args conf g pod :
  podReturned H args (assigned conf g) pod = podReturned H args g pod.
Proof.
  destruct (assigned_keys conf g) as (_ & _ & Hhook).
  unfold podReturned, redirectReturned. by rewrite allows_assigned, Hhook.
Qed.

Lemma podBlock_outline args podName podNamespace pod g :
  returned (podBlock H args podName podNamespace pod g)
    = podReturned H args g pod /\
  callsOf (trace (podBlock H args podName podNamespace pod g))
    = podCalls H args g pod.
Proof.
  unfold podReturned, podCalls, allows, passesLine198,
    redirectReturned, redirectExecutorCalls.
  destruct (hasProxy pod && (1 <? length (containers pod))%nat) eqn:Hgate.
  - rewrite (podBlock_enter H _ _ _ _ _ Hgate).
    cbn [returned globalsAfter trace andb].
    change (callsOf (?e :: ?l)) with (callsOf ([e] ++ l)).
    rewrite !callsOf_app, callsOf_injectTrace, callsOf_sidecarTrace.
    destruct (injectExcludes (annotations pod !! injectAnnotationKey g)
              || sidecarExcludes (annotations pod !! sidecarStatusKey g));
      cbn [negb]; [split; reflexivity|].
    rewrite redirectBlock_run. cbv zeta.
    destruct (NewRedirect H (proxyUID pod) (proxyGID pod) (ports pod)
                (annotations pod)) as [redirect|err];
      [destruct (setupRedirect g)|]; split; reflexivity.
  - rewrite (podBlock_skip H _ _ _ _ _ Hgate). split; reflexivity.
Qed.

(** The decision tree [addOutline] is what [cmdAdd] returns and calls. *)
Lemma cmdAdd_outline args g :
  returned (cmdAdd H args g) = fst (addOutline H args g) /\
  callsOf (trace (cmdAdd H args g)) = snd (addOutline H args g).
Proof.
  unfold addOutline.
  destruct (parseConfig H (StdinData args)) as [conf|err] eqn:Hparse;
    [|by rewrite (cmdAdd_parse_error_run args g err Hparse)].
  destruct (types_LoadArgs H (Args args)) as [k8sArgs|err] eqn:Hload;
    [|destruct (cmdAdd_load_error_run args conf g err Hparse Hload)
        as [lvl ->]; split; reflexivity].
  destruct (cmdAdd_run H args conf k8sArgs g (conj Hparse Hload)) as [lvl Hrun].
  cbv zeta in *. rewrite Hrun. clear Hrun. cbn [returned globalsAfter trace].
  rewrite callsOf_app. change (callsOf (gatePrefix _ _ _ _)) with (@nil Event).
  rewrite app_nil_l.
  unfold k8sBlock, printBlock, printReturned.
  set (ns := K8S_POD_NAMESPACE k8sArgs). set (name := K8S_POD_NAME k8sArgs).
  destruct (negb (String.eqb ns "") && negb (String.eqb name ""));
    cbn [andb];
    [|unfold mbind, M_bind, logInfo, emit;
      cbn [returned globalsAfter trace];
      destruct (types_PrintResult H (resultOf H conf) (CNIVersion conf));
      split; reflexivity].
  destruct (excludeLoop ns (ExcludeNamespaces (Kubernetes_ conf)));
    cbn [negb];
    [unfold mbind, M_bind, logInfo, emit;
     cbn [returned globalsAfter trace];
     destruct (types_PrintResult H (resultOf H conf) (CNIVersion conf));
     split; reflexivity|].
  unfold mbind, M_bind, logInfo, logDebug, logError, emit.
  cbn [returned globalsAfter trace].
  destruct (newKubeClient H conf) as [client|err]; [|split; reflexivity].
  cbn [returned globalsAfter trace].
  destruct (getKubePodInfo H client name ns) as [pod|err];
    [|split; reflexivity].
  cbn [returned globalsAfter trace].
  destruct (podBlock_outline args name ns pod (assigned conf g))
    as [Hret Hcalls].
  rewrite podReturned_assigned in Hret. rewrite podCalls_assigned in Hcalls.
  rewrite <- Hret.
  destruct (returned (podBlock H args name ns pod (assigned conf g)));
    cbn [returned globalsAfter trace fst snd].
  - rewrite !callsOf_app, Hcalls.
    destruct (types_PrintResult H (resultOf H conf) (CNIVersion conf));
      split; reflexivity.
  - rewrite !callsOf_app, Hcalls. split; reflexivity.
Qed.

End Paths.

(** ** [parseConfig] *)

(** X1.  A configuration returned by [parseConfig] never carries the raw
    previous result any more; its version, log level and Kubernetes settings
    are those decoded from the input; and it carries a previous result
    exactly when the input had one. *)
Theorem parseConfig_success_invariant (H : Host) stdin conf :
  parseConfig H stdin = Ok conf ->
  RawPrevResult conf = None /\
  exists decoded,
    json_Unmarshal H stdin = Ok decoded /\
    CNIVersion conf = CNIVersion decoded /\
    LogLevel conf = LogLevel decoded /\
    Kubernetes_ conf = Kubernetes_ decoded /\
    (is_Some (PrevResult conf) <-> is_Some (RawPrevResult decoded)).
Proof.
  unfold parseConfig.
  destruct (json_Unmarshal H stdin) as [decoded|err]; [|discriminate].
  cbn [RawPrevResult CNIVersion].
  destruct (RawPrevResult decoded) as [raw|] eqn:Hraw.
  - destruct (json_Marshal H raw) as [bytes|err]; [|discriminate].
    destruct (version_NewResult H (CNIVersion decoded) bytes) as [res|err];
      [|discriminate].
    destruct (current_NewResultFromResult H res) as [prev|err];
      [|discriminate].
    intros [= <-]. split; [reflexivity|]. exists decoded. simpl.
    rewrite Hraw. repeat split; eauto.
  - intros [= <-]. split; [reflexivity|]. exists decoded. simpl.
    rewrite Hraw. repeat split; intros [x Hx]; discriminate.
Qed.

Lemma parseConfig_success_invariant_witness :
  RawPrevResult (Sample.conf ["kube-system"] "" "") = None /\
  exists decoded,
    json_Unmarshal Sample.hostAllow "{}" = Ok decoded /\
    CNIVersion (Sample.conf ["kube-system"] "" "") = CNIVersion decoded /\
    LogLevel (Sample.conf ["kube-system"] "" "") = LogLevel decoded /\
    Kubernetes_ (Sample.conf ["kube-system"] "" "") = Kubernetes_ decoded /\
    (is_Some (PrevResult (Sample.conf ["kube-system"] "" ""))
       <-> is_Some (RawPrevResult decoded)).
Proof.
  apply (parseConfig_success_invariant Sample.hostAllow "{}"
           (Sample.conf ["kube-system"] "" "")).
  reflexivity.
Defined.

(** X2.  The previous result of a parsed configuration is the input's
    [prevResult] re-encoded, read as a result of the configuration's own
    [cniVersion], and converted to the current result type. *)
Theorem parseConfig_prevResult_provenance (H : Host) stdin conf prev :
  parseConfig H stdin = Ok conf ->
  PrevResult conf = Some prev ->
  exists decoded raw resultBytes res,
    json_Unmarshal H stdin = Ok decoded /\
    RawPrevResult decoded = Some raw /\
    json_Marshal H raw = Ok resultBytes /\
    version_NewResult H (CNIVersion conf) resultBytes = Ok res /\
    current_NewResultFromResult H res = Ok prev.
Proof.
  unfold parseConfig.
  destruct (json_Unmarshal H stdin) as [decoded|err]; [|discriminate].
  cbn [RawPrevResult CNIVersion].
  destruct (RawPrevResult decoded) as [raw|] eqn:Hraw.
  - destruct (json_Marshal H raw) as [bytes|err] eqn:Hbytes; [|discriminate].
    destruct (version_NewResult H (CNIVersion decoded) bytes) as [res|err]
      eqn:Hres; [|discriminate].
    destruct (current_NewResultFromResult H res) as [prev'|err] eqn:Hprev;
      [|discriminate].
    intros [= <-]. simpl. intros [= <-].
    exists decoded, raw, bytes, res. repeat split; assumption.
  - intros [= <-]. simpl. discriminate.
Qed.

Lemma parseConfig_prevResult_provenance_witness :
  exists decoded raw resultBytes res,
    json_Unmarshal Faulty.chained "{}" = Ok decoded /\
    RawPrevResult decoded = Some raw /\
    json_Marshal Faulty.chained raw = Ok resultBytes /\
    version_NewResult Faulty.chained "0.3.1" resultBytes = Ok res /\
    current_NewResultFromResult Faulty.chained res
      = Ok {| res_CNIVersion := "0.3.1"; res_payload := "ips-and-routes" |}.
Proof.
  apply (parseConfig_prevResult_provenance Faulty.chained "{}"
           {| CNIVersion := "0.3.1"; RawPrevResult := None;
              PrevResult := Some {| res_CNIVersion := "0.3.1";
                                    res_payload := "ips-and-routes" |};
              LogLevel := "debug";
              Kubernetes_ := Sample.kube ["kube-system"] "" "" |}).
  - reflexivity.
  - reflexivity.
Defined.

(** X3.  Every error of [parseConfig] is the error of the first stage that
    failed, behind the message of that stage: decoding the input,
    re-encoding the previous result, reading it at the configuration's
    version, or converting it. *)
Theorem parseConfig_error_stage (H : Host) stdin err :
  parseConfig H stdin = Err err ->
  (exists cause,
     json_Unmarshal H stdin = Err cause /\
     err = "failed to parse network configuration: " +:+ cause) \/
  exists decoded raw,
    json_Unmarshal H stdin = Ok decoded /\
    RawPrevResult decoded = Some raw /\
    ((exists cause,
        json_Marshal H raw = Err cause /\
        err = "could not serialize prevResult: " +:+ cause) \/
     exists resultBytes,
       json_Marshal H raw = Ok resultBytes /\
       ((exists cause,
           version_NewResult H (CNIVersion decoded) resultBytes = Err cause /\
           err = "could not parse prevResult: " +:+ cause) \/
        exists res cause,
          version_NewResult H (CNIVersion decoded) resultBytes = Ok res /\
          current_NewResultFromResult H res = Err cause /\
          err = "could not convert result to current version: " +:+ cause)).
Proof.
  unfold parseConfig.
  destruct (json_Unmarshal H stdin) as [decoded|cause];
    [|intros [= <-]; left; exists cause; split; reflexivity].
  cbn [RawPrevResult CNIVersion].
  destruct (RawPrevResult decoded) as [raw|] eqn:Hraw; [|discriminate].
  intros Herr. right. exists decoded, raw.
  split; [reflexivity|]. split; [exact Hraw|].
  destruct (json_Marshal H raw) as [bytes|cause];
    [|injection Herr as <-; left; exists cause; split; reflexivity].
  right. exists bytes. split; [reflexivity|].
  destruct (version_NewResult H (CNIVersion decoded) bytes) as [res|cause];
    [|injection Herr as <-; left; exists cause; split; reflexivity].
  destruct (current_NewResultFromResult H res) as [prev|cause] eqn:Hconv;
    [discriminate|].
  injection Herr as <-. right. exists res, cause.
  split; [reflexivity|]. split; [exact Hconv | reflexivity].
Qed.

Lemma parseConfig_error_stage_witness :
  (exists cause,
     json_Unmarshal Faulty.chainedOldVersion "{}" = Err cause /\
     "could not parse prevResult: unsupported CNI result version"
       = "failed to parse network configuration: " +:+ cause) \/
  exists decoded raw,
    json_Unmarshal Faulty.chainedOldVersion "{}" = Ok decoded /\
    RawPrevResult decoded = Some raw /\
    ((exists cause,
        json_Marshal Faulty.chainedOldVersion raw = Err cause /\
        "could not parse prevResult: unsupported CNI result version"
          = "could not serialize prevResult: " +:+ cause) \/
     exists resultBytes,
       json_Marshal Faulty.chainedOldVersion raw = Ok resultBytes /\
       ((exists cause,
           version_NewResult Faulty.chainedOldVersion (CNIVersion decoded)
             resultBytes = Err cause /\
           "could not parse prevResult: unsupported CNI result version"
             = "could not parse prevResult: " +:+ cause) \/
        exists res cause,
          version_NewResult Faulty.chainedOldVersion (CNIVersion decoded)
            resultBytes = Ok res /\
          current_NewResultFromResult Faulty.chainedOldVersion res
            = Err cause /\
          "could not parse prevResult: unsupported CNI result version"
            = "could not convert result to current version: " +:+ cause)).
Proof.
  apply (parseConfig_error_stage Faulty.chainedOldVersion "{}").
  reflexivity.
Defined.

(** ** The failures of [cmdAdd] before the pod is known *)

Lemma cmdAdd_globalsAfter (H : Host) args conf k8sArgs g :
  Parses H args conf k8sArgs ->
  globalsAfter (cmdAdd H args g) = assigned conf g.
Proof.
  intros Hparses.
  destruct (cmdAdd_run H args conf k8sArgs g Hparses) as [lvl Hrun].
  cbv zeta in Hrun. rewrite Hrun. clear Hrun. cbn [globalsAfter].
  unfold mbind, M_bind.
  pose proof (k8sBlock_globals H args conf (K8S_POD_NAME k8sArgs)
                (K8S_POD_NAMESPACE k8sArgs) (assigned conf g)) as Hk8s.
  destruct (returned (k8sBlock H args conf (K8S_POD_NAME k8sArgs)
                        (K8S_POD_NAMESPACE k8sArgs) (assigned conf g)));
    cbn [globalsAfter]; rewrite ?Hk8s, ?printBlock_globals; reflexivity.
Qed.

Lemma assigned_fields conf g :
  nsSetupBinDir (assigned conf g) =
    (if String.eqb (CniBinDir (Kubernetes_ conf)) "" then nsSetupBinDir g
     else CniBinDir (Kubernetes_ conf)) /\
  nsSetupProg (assigned conf g) =
    (if String.eqb (IptablesScript (Kubernetes_ conf)) "" then nsSetupProg g
     else IptablesScript (Kubernetes_ conf)).
Proof.
  unfold assigned.
  destruct (String.eqb (CniBinDir (Kubernetes_ conf)) "");
    destruct (String.eqb (IptablesScript (Kubernetes_ conf)) "");
    split; reflexivity.
Qed.

(** Lines 178-192 when the gate is open and a collaborator fails. *)
Lemma cmdAdd_metadata_error_run (H : Host) args conf k8sArgs g :
  Parses H args conf k8sArgs ->
  K8S_POD_NAMESPACE k8sArgs <> "" ->
  K8S_POD_NAME k8sArgs <> "" ->
  ~ In (K8S_POD_NAMESPACE k8sArgs) (ExcludeNamespaces (Kubernetes_ conf)) ->
  exists lvl,
    match newKubeClient H conf with
    | Err err =>
        cmdAdd H args g =
          {| returned := Err err; globalsAfter := assigned conf g;
             trace := gatePrefix lvl args conf k8sArgs ++ [CallNewKubeClient] |}
    | Ok client =>
        match getKubePodInfo H client (K8S_POD_NAME k8sArgs)
                (K8S_POD_NAMESPACE k8sArgs) with
        | Err err =>
            cmdAdd H args g =
              {| returned := Err err; globalsAfter := assigned conf g;
                 trace := gatePrefix lvl args conf k8sArgs ++
                          [CallNewKubeClient; Log DebugLevel MsgCreatedClient;
                           CallGetKubePodInfo (K8S_POD_NAME k8sArgs)
                             (K8S_POD_NAMESPACE k8sArgs);
                           Log ErrorLevel (MsgErrorGettingPodData err)] |}
        | Ok _ => True
        end
    end.
Proof.
  intros Hparses Hns Hname Hexcl.
  destruct (cmdAdd_run H args conf k8sArgs g Hparses) as [lvl Hrun].
  exists lvl. cbv zeta in Hrun. rewrite Hrun. clear Hrun.
  unfold k8sBlock.
  rewrite (eqb_empty_false _ Hns), (eqb_empty_false _ Hname).
  destruct (excludeLoop (K8S_POD_NAMESPACE k8sArgs)
              (ExcludeNamespaces (Kubernetes_ conf))) eqn:Hloop;
    [apply excludeLoop_In in Hloop; contradiction|].
  unfold mbind, M_bind, logInfo, logDebug, logError, emit.
  cbn [returned globalsAfter trace negb andb].
  destruct (newKubeClient H conf) as [client|err]; [|reflexivity].
  cbn [returned globalsAfter trace].
  destruct (getKubePodInfo H client (K8S_POD_NAME k8sArgs)
              (K8S_POD_NAMESPACE k8sArgs)) as [pod|err]; [exact I|].
  reflexivity.
Qed.

(** X4.  When [parseConfig] fails, [cmdAdd] returns its error at once: the
    only event is the first log line, so the log level is not configured, the
    CNI arguments are not loaded, no collaborator is called and no result is
    printed; the package-level variables are untouched. *)
Theorem cmdAdd_config_error (H : Host) args g err :
  parseConfig H (StdinData args) = Err err ->
  let o := cmdAdd H args g in
  returned o = Err err /\
  trace o = [Log InfoLevel MsgParsingConfig] /\
  globalsAfter o = g.
Proof.
  intros Hparse o. subst o.
  rewrite (cmdAdd_parse_error_run H args g err Hparse). done.
Qed.

Lemma cmdAdd_config_error_witness :
  returned (cmdAdd Faulty.badConfig Sample.args initGlobals)
    = Err "failed to parse network configuration: unexpected end of JSON input" /\
  trace (cmdAdd Faulty.badConfig Sample.args initGlobals)
    = [Log InfoLevel MsgParsingConfig] /\
  globalsAfter (cmdAdd Faulty.badConfig Sample.args initGlobals) = initGlobals.
Proof.
  apply (cmdAdd_config_error Faulty.badConfig Sample.args initGlobals).
  reflexivity.
Defined.

(** X5.  When the configuration parses but the CNI arguments do not load,
    [cmdAdd] returns the loader's error after configuring the log level
    once; no collaborator is called, nothing is printed, and the
    package-level variables keep their values even when the configuration
    names a binary directory or a script: lines 161-166 are not reached. *)
Theorem cmdAdd_args_error (H : Host) args g conf err :
  parseConfig H (StdinData args) = Ok conf ->
  types_LoadArgs H (Args args) = Err err ->
  let o := cmdAdd H args g in
  returned o = Err err /\
  callsOf (trace o) = [] /\
  countEv isSetLevel (trace o) = 1 /\
  verdicts (trace o) = [] /\
  globalsAfter o = g.
Proof.
  intros Hparse Hload o. subst o.
  destruct (cmdAdd_load_error_run H args conf g err Hparse Hload) as [lvl ->].
  done.
Qed.

Lemma cmdAdd_args_error_witness :
  returned (cmdAdd Faulty.badArgs Sample.args initGlobals)
    = Err "ARGS: invalid pair" /\
  callsOf (trace (cmdAdd Faulty.badArgs Sample.args initGlobals)) = [] /\
  countEv isSetLevel (trace (cmdAdd Faulty.badArgs Sample.args initGlobals))
    = 1 /\
  verdicts (trace (cmdAdd Faulty.badArgs Sample.args initGlobals)) = [] /\
  globalsAfter (cmdAdd Faulty.badArgs Sample.args initGlobals) = initGlobals.
Proof.
  apply (cmdAdd_args_error Faulty.badArgs Sample.args initGlobals
           Faulty.customBinConf).
  - reflexivity.
  - reflexivity.
Defined.

(** X6.  When the pod is a candidate and the Kubernetes client cannot be
    created, [cmdAdd] returns that error: the client constructor is the only
    collaborator called (no pod query, no redirect, no printed result) and no
    verdict is reached; the package-level variables have already been
    assigned from the configuration. *)
Theorem cmdAdd_client_error (H : Host) args g conf k8sArgs err :
  Parses H args conf k8sArgs ->
  K8S_POD_NAMESPACE k8sArgs <> "" ->
  K8S_POD_NAME k8sArgs <> "" ->
  ~ In (K8S_POD_NAMESPACE k8sArgs) (ExcludeNamespaces (Kubernetes_ conf)) ->
  newKubeClient H conf = Err err ->
  let o := cmdAdd H args g in
  returned o = Err err /\
  callsOf (trace o) = [CallNewKubeClient] /\
  verdicts (trace o) = [] /\
  nsSetupBinDir (globalsAfter o) =
    (if String.eqb (CniBinDir (Kubernetes_ conf)) "" then nsSetupBinDir g
     else CniBinDir (Kubernetes_ conf)) /\
  nsSetupProg (globalsAfter o) =
    (if String.eqb (IptablesScript (Kubernetes_ conf)) "" then nsSetupProg g
     else IptablesScript (Kubernetes_ conf)).
Proof.
  intros Hparses Hns Hname Hexcl Hclient o. subst o.
  destruct (cmdAdd_metadata_error_run H args conf k8sArgs g Hparses Hns Hname
              Hexcl) as [lvl Hrun].
  rewrite Hclient in Hrun. rewrite Hrun. cbn [returned globalsAfter trace].
  destruct (assigned_fields conf g) as [Hbin Hprog].
  rewrite callsOf_app. rewrite verdicts_quiet by reflexivity. done.
Qed.

Lemma cmdAdd_client_error_witness :
  returned (cmdAdd Faulty.noClient Sample.args initGlobals)
    = Err "no kubeconfig" /\
  callsOf (trace (cmdAdd Faulty.noClient Sample.args initGlobals))
    = [CallNewKubeClient] /\
  verdicts (trace (cmdAdd Faulty.noClient Sample.args initGlobals)) = [] /\
  nsSetupBinDir (globalsAfter (cmdAdd Faulty.noClient Sample.args initGlobals))
    = "/custom/bin" /\
  nsSetupProg (globalsAfter (cmdAdd Faulty.noClient Sample.args initGlobals))
    = "setup.sh".
Proof.
  apply (cmdAdd_client_error Faulty.noClient Sample.args initGlobals
           Faulty.customBinConf Sample.web).
  - split; reflexivity.
  - discriminate.
  - discriminate.
  - simpl. intros [Heq | []]. discriminate.
  - reflexivity.
Defined.

(** X7.  When the pod query fails, [cmdAdd] logs the error at error level
    and returns it: the client constructor and the query are the only
    collaborators called, in that order, no annotation is read, no verdict is
    reached and no result is printed. *)
Theorem cmdAdd_query_error (H : Host) args g conf k8sArgs client err :
  Parses H args conf k8sArgs ->
  K8S_POD_NAMESPACE k8sArgs <> "" ->
  K8S_POD_NAME k8sArgs <> "" ->
  ~ In (K8S_POD_NAMESPACE k8sArgs) (ExcludeNamespaces (Kubernetes_ conf)) ->
  newKubeClient H conf = Ok client ->
  getKubePodInfo H client (K8S_POD_NAME k8sArgs) (K8S_POD_NAMESPACE k8sArgs)
    = Err err ->
  let o := cmdAdd H args g in
  returned o = Err err /\
  callsOf (trace o) =
    [CallNewKubeClient;
     CallGetKubePodInfo (K8S_POD_NAME k8sArgs) (K8S_POD_NAMESPACE k8sArgs)] /\
  last (trace o) = Some (Log ErrorLevel (MsgErrorGettingPodData err)) /\
  countEv isAnnotationLog (trace o) = 0 /\
  verdicts (trace o) = [].
Proof.
  intros Hparses Hns Hname Hexcl Hclient Hquery o. subst o.
  destruct (cmdAdd_metadata_error_run H args conf k8sArgs g Hparses Hns Hname
              Hexcl) as [lvl Hrun].
  rewrite Hclient, Hquery in Hrun. rewrite Hrun.
  cbn [returned globalsAfter trace].
  rewrite callsOf_app. rewrite verdicts_quiet by reflexivity. done.
Qed.

Lemma cmdAdd_query_error_witness :
  returned (cmdAdd Faulty.noPod Sample.args initGlobals)
    = Err "pods web not found" /\
  callsOf (trace (cmdAdd Faulty.noPod Sample.args initGlobals))
    = [CallNewKubeClient; CallGetKubePodInfo "web" "default"] /\
  last (trace (cmdAdd Faulty.noPod Sample.args initGlobals))
    = Some (Log ErrorLevel (MsgErrorGettingPodData "pods web not found")) /\
  countEv isAnnotationLog (trace (cmdAdd Faulty.noPod Sample.args initGlobals))
    = 0 /\
  verdicts (trace (cmdAdd Faulty.noPod Sample.args initGlobals)) = [].
Proof.
  apply (cmdAdd_query_error Faulty.noPod Sample.args initGlobals
           Sample.plainConf Sample.web tt).
  - split; reflexivity.
  - discriminate.
  - discriminate.
  - simpl. intros [Heq | []]. discriminate.
  - reflexivity.
  - reflexivity.
Defined.

(** ** What every run of [cmdAdd] does and never does *)

(** X8.  The collaborator calls of any run of [cmdAdd] form one of eight
    sequences.  So each collaborator is called at most once; the pod is
    queried only after the client was created, a redirect is built only
    after the pod query, an executor runs only after a redirect was built,
    and printing the result, when it happens, is the last call. *)
Theorem cmdAdd_call_sequences (H : Host) args g :
  In (callKinds (trace (cmdAdd H args g)))
    [ [];
      [KPrint];
      [KClient];
      [KClient; KQuery];
      [KClient; KQuery; KPrint];
      [KClient; KQuery; KBuild];
      [KClient; KQuery; KBuild; KExecute];
      [KClient; KQuery; KBuild; KExecute; KPrint] ].
Proof.
  rewrite callKinds_callsOf.
  destruct (cmdAdd_outline H args g) as [_ ->].
  unfold addOutline, podReturned, podCalls, redirectReturned,
    redirectExecutorCalls.
  destruct (parseConfig H (StdinData args)) as [conf|?]; [|simpl; tauto].
  destruct (types_LoadArgs H (Args args)) as [k8sArgs|?]; [|simpl; tauto].
  cbv zeta.
  destruct (negb (String.eqb (K8S_POD_NAMESPACE k8sArgs) "")
            && negb (String.eqb (K8S_POD_NAME k8sArgs) "")
            && negb (excludeLoop (K8S_POD_NAMESPACE k8sArgs)
                       (ExcludeNamespaces (Kubernetes_ conf))));
    [|simpl; tauto].
  destruct (newKubeClient H conf) as [client|?]; [|simpl; tauto].
  destruct (getKubePodInfo H client (K8S_POD_NAME k8sArgs)
              (K8S_POD_NAMESPACE k8sArgs)) as [pod|?]; [|simpl; tauto].
  destruct (allows g pod); [|simpl; tauto].
  destruct (NewRedirect H (proxyUID pod) (proxyGID pod) (ports pod)
              (annotations pod)) as [redirect|?]; [|simpl; tauto].
  destruct (setupRedirect g); [simpl; tauto|].
  destruct (doRedirect H redirect (Netns args)); simpl; tauto.
Qed.

(** X9.  The override hook replaces the production executor: in no run with
    [setupRedirect] installed is [doRedirect] called, and in no run without
    it is the hook called. *)
Theorem cmdAdd_hook_replaces_doRedirect (H : Host) args g :
  let o := cmdAdd H args g in
  match setupRedirect g with
  | Some _ => countEv isDoRedirectCall (trace o) = 0
  | None => countEv isSetupRedirectCall (trace o) = 0
  end.
Proof.
  intros o. subst o. unfold countEv.
  rewrite <- (filter_callsOf isDoRedirectCall)
    by (intros [] Hp; (discriminate Hp || reflexivity)).
  rewrite <- (filter_callsOf isSetupRedirectCall)
    by (intros [] Hp; (discriminate Hp || reflexivity)).
  destruct (cmdAdd_outline H args g) as [_ ->].
  unfold addOutline, podReturned, podCalls, redirectReturned,
    redirectExecutorCalls.
  destruct (parseConfig H (StdinData args)) as [conf|?];
    [|destruct (setupRedirect g); reflexivity].
  destruct (types_LoadArgs H (Args args)) as [k8sArgs|?];
    [|destruct (setupRedirect g); reflexivity].
  cbv zeta.
  destruct (negb (String.eqb (K8S_POD_NAMESPACE k8sArgs) "")
            && negb (String.eqb (K8S_POD_NAME k8sArgs) "")
            && negb (excludeLoop (K8S_POD_NAMESPACE k8sArgs)
                       (ExcludeNamespaces (Kubernetes_ conf))));
    [|destruct (setupRedirect g); reflexivity].
  destruct (newKubeClient H conf) as [client|?];
    [|destruct (setupRedirect g); reflexivity].
  destruct (getKubePodInfo H client (K8S_POD_NAME k8sArgs)
              (K8S_POD_NAMESPACE k8sArgs)) as [pod|?];
    [|destruct (setupRedirect g); reflexivity].
  destruct (allows g pod); [|destruct (setupRedirect g); reflexivity].
  destruct (NewRedirect H (proxyUID pod) (proxyGID pod) (ports pod)
              (annotations pod)) as [redirect|?];
    [|destruct (setupRedirect g); reflexivity].
  destruct (setupRedirect g); [reflexivity|].
  destruct (doRedirect H redirect (Netns args)); reflexivity.
Qed.

(** X10.  [cmdAdd] reports success only after printing: whenever it returns
    [nil], the configuration parsed, the result was printed exactly once, as
    the last collaborator call, and the printer returned [nil]. *)
Theorem cmdAdd_success_prints_last (H : Host) args g :
  returned (cmdAdd H args g) = Ok tt ->
  exists conf,
    parseConfig H (StdinData args) = Ok conf /\
    last (callsOf (trace (cmdAdd H args g)))
      = Some (CallPrintResult (resultOf H conf) (CNIVersion conf)) /\
    countEv isPrintResult (trace (cmdAdd H args g)) = 1 /\
    types_PrintResult H (resultOf H conf) (CNIVersion conf) = None.
Proof.
  unfold countEv.
  rewrite <- (filter_callsOf isPrintResult)
    by (intros [] Hp; (discriminate Hp || reflexivity)).
  destruct (cmdAdd_outline H args g) as [-> ->].
  unfold addOutline, podReturned, podCalls, redirectReturned,
    redirectExecutorCalls, printReturned.
  destruct (parseConfig H (StdinData args)) as [conf|?]; [|discriminate].
  destruct (types_LoadArgs H (Args args)) as [k8sArgs|?]; [|discriminate].
  cbv zeta. intros Hok. exists conf. split; [reflexivity|]. revert Hok.
  destruct (negb (String.eqb (K8S_POD_NAMESPACE k8sArgs) "")
            && negb (String.eqb (K8S_POD_NAME k8sArgs) "")
            && negb (excludeLoop (K8S_POD_NAMESPACE k8sArgs)
                       (ExcludeNamespaces (Kubernetes_ conf))));
    [|cbn [fst snd];
      destruct (types_PrintResult H (resultOf H conf) (CNIVersion conf));
      [discriminate | done]].
  destruct (newKubeClient H conf) as [client|?]; [|discriminate].
  destruct (getKubePodInfo H client (K8S_POD_NAME k8sArgs)
              (K8S_POD_NAMESPACE k8sArgs)) as [pod|?]; [|discriminate].
  destruct (allows g pod);
    [destruct (NewRedirect H (proxyUID pod) (proxyGID pod) (ports pod)
                 (annotations pod)) as [redirect|?];
     [destruct (setupRedirect g);
      [|destruct (doRedirect H redirect (Netns args))]|]|];
    cbn [fst snd]; try discriminate;
    destruct (types_PrintResult H (resultOf H conf) (CNIVersion conf));
    (discriminate || done).
Qed.

Lemma cmdAdd_success_prints_last_witness :
  exists conf,
    parseConfig Faulty.chained (StdinData Sample.args) = Ok conf /\
    last (callsOf (trace (cmdAdd Faulty.chained Sample.args initGlobals)))
      = Some (CallPrintResult (resultOf Faulty.chained conf) (CNIVersion conf)) /\
    countEv isPrintResult
      (trace (cmdAdd Faulty.chained Sample.args initGlobals)) = 1 /\
    types_PrintResult Faulty.chained (resultOf Faulty.chained conf)
      (CNIVersion conf) = None.
Proof.
  apply (cmdAdd_success_prints_last Faulty.chained Sample.args initGlobals).
  vm_compute. reflexivity.
Defined.

(** X11.  What [cmdAdd] prints does not depend on the pod: any result it
    prints is the previous plugin's result when the configuration carries
    one, and otherwise a fresh result that holds only the implemented
    version; it is printed at the configuration's [cniVersion]. *)
Theorem cmdAdd_prints_chain_result (H : Host) args g r version :
  In (CallPrintResult r version) (trace (cmdAdd H args g)) ->
  exists conf,
    parseConfig H (StdinData args) = Ok conf /\
    version = CNIVersion conf /\
    r = match PrevResult conf with
        | Some prev => prev
        | None => {| res_CNIVersion := ImplementedSpecVersion H;
                     res_payload := "" |}
        end.
Proof.
  intros Hin. apply In_callsOf in Hin; [|reflexivity]. revert Hin.
  destruct (cmdAdd_outline H args g) as [_ ->].
  unfold addOutline, podReturned, podCalls, redirectReturned,
    redirectExecutorCalls.
  destruct (parseConfig H (StdinData args)) as [conf|?]; [|intros []].
  destruct (types_LoadArgs H (Args args)) as [k8sArgs|?]; [|intros []].
  cbv zeta. intros Hin. exists conf. split; [reflexivity|].
  assert (Hprint : CallPrintResult r version
                   = CallPrintResult (resultOf H conf) (CNIVersion conf)).
  { revert Hin.
    destruct (negb (String.eqb (K8S_POD_NAMESPACE k8sArgs) "")
              && negb (String.eqb (K8S_POD_NAME k8sArgs) "")
              && negb (excludeLoop (K8S_POD_NAMESPACE k8sArgs)
                         (ExcludeNamespaces (Kubernetes_ conf))));
      [|simpl; intros [Heq | []]; by symmetry].
    destruct (newKubeClient H conf) as [client|?];
      [|simpl; intuition discriminate].
    destruct (getKubePodInfo H client (K8S_POD_NAME k8sArgs)
                (K8S_POD_NAMESPACE k8sArgs)) as [pod|?];
      [|simpl; intuition discriminate].
    destruct (allows g pod);
      [destruct (NewRedirect H (proxyUID pod) (proxyGID pod) (ports pod)
                   (annotations pod)) as [redirect|?];
       [destruct (setupRedirect g);
        [|destruct (doRedirect H redirect (Netns args))]|]|];
      simpl; intuition (discriminate || congruence). }
  injection Hprint as -> ->. split; reflexivity.
Qed.

Lemma cmdAdd_prints_chain_result_witness :
  exists conf,
    parseConfig Faulty.chained (StdinData Sample.args) = Ok conf /\
    "0.3.1" = CNIVersion conf /\
    {| res_CNIVersion := "0.3.1"; res_payload := "ips-and-routes" |}
      = match PrevResult conf with
        | Some prev => prev
        | None => {| res_CNIVersion := ImplementedSpecVersion Faulty.chained;
                     res_payload := "" |}
        end.
Proof.
  apply (cmdAdd_prints_chain_result Faulty.chained Sample.args initGlobals).
  vm_compute. do 14 right. left. reflexivity.
Defined.

(** ** The decision, in both directions *)

Lemma allows_iff g pod :
  allows g pod = true <->
  hasProxy pod = true /\
  1 < length (containers pod) /\
  (forall val, annotations pod !! injectAnnotationKey g = Some val ->
               ParseBool val <> Some false) /\
  is_Some (annotations pod !! sidecarStatusKey g).
Proof.
  unfold allows, passesLine198, injectExcludes, sidecarExcludes.
  destruct (hasProxy pod);
    destruct (Nat.ltb_spec 1 (length (containers pod))) as [Hlen | Hlen];
    (destruct (annotations pod !! injectAnnotationKey g) as [val|];
     [destruct (ParseBool val) as [[|]|] eqn:Hparse|]);
    destruct (annotations pod !! sidecarStatusKey g) as [st|];
    simpl; rewrite ?Hparse; simpl;
    (split; intros Hx;
     [ try discriminate Hx;
       repeat split; try lia; try (eexists; reflexivity);
       intros val' Hval; try discriminate Hval;
       injection Hval as <-; congruence
     | first
         [ reflexivity
         | destruct Hx as (Hproxy & Hlt & Hno & [st' Hst]);
           first [ discriminate Hproxy | discriminate Hst | lia
                 | exfalso; by apply (Hno _ eq_refl) ] ] ]).
Qed.

(** X12.  A pod with a proxy and at least two containers that carries no
    status annotation is never redirected, whatever its inject annotation:
    the missing-status exclusion is the last verdict of the run (the only
    one unless the inject annotation parses as [false]), no redirect is
    built, no executor runs, and [cmdAdd] returns what printing returns. *)
Theorem cmdAdd_missing_status_excludes (H : Host) args conf k8sArgs pod g :
  ReachesPod H args conf k8sArgs pod ->
  hasProxy pod = true ->
  2 <= length (containers pod) ->
  annotations pod !! sidecarStatusKey g = None ->
  let o := cmdAdd H args g in
  verdicts (trace o) =
    (if injectExcludes (annotations pod !! injectAnnotationKey g)
     then [ExcludedByInjectAnnotation] else [])
    ++ [ExcludedMissingSidecarStatus] /\
  ~ In Allow (verdicts (trace o)) /\
  callsOf (trace o) =
    [CallNewKubeClient;
     CallGetKubePodInfo (K8S_POD_NAME k8sArgs) (K8S_POD_NAMESPACE k8sArgs);
     CallPrintResult (resultOf H conf) (CNIVersion conf)] /\
  returned o = printReturned H conf.
Proof.
  intros Hreach Hproxy Hlen Hstatus o.
  destruct (cmdAdd_pod_summary H args conf k8sArgs pod g Hreach)
    as (Hv & _ & _ & _ & _ & Hret & _).
  destruct (cmdAdd_outline H args g) as [_ Hcalls].
  fold o in Hv, Hret, Hcalls. clearbody o.
  destruct Hreach as ([Hparse Hload] & Hns & Hname & Hexcl & client
                      & Hclient & Hquery).
  assert (Hloop : excludeLoop (K8S_POD_NAMESPACE k8sArgs)
                    (ExcludeNamespaces (Kubernetes_ conf)) = false).
  { destruct (excludeLoop _ _) eqn:Hloop; [|reflexivity].
    apply excludeLoop_In in Hloop. contradiction. }
  unfold addOutline in Hcalls.
  rewrite Hparse, Hload in Hcalls. cbv zeta in Hcalls.
  rewrite (eqb_empty_false _ Hns), (eqb_empty_false _ Hname), Hloop, Hclient,
    Hquery in Hcalls.
  unfold podReturned, podCalls in Hcalls.
  unfold podVerdicts in Hv. unfold allows in *.
  rewrite (passesLine198_true pod Hproxy Hlen), Hstatus in *.
  cbn [sidecarExcludes andb negb orb] in *.
  rewrite orb_true_r in *. cbn [negb app snd] in *.
  rewrite Hv, Hcalls, Hret.
  destruct (injectExcludes (annotations pod !! injectAnnotationKey g));
    repeat split; try reflexivity; simpl; intuition discriminate.
Qed.

Lemma cmdAdd_missing_status_excludes_witness :
  verdicts (trace (cmdAdd Faulty.noStatus Sample.args initGlobals))
    = [ExcludedMissingSidecarStatus] /\
  ~ In Allow (verdicts (trace (cmdAdd Faulty.noStatus Sample.args initGlobals))) /\
  callsOf (trace (cmdAdd Faulty.noStatus Sample.args initGlobals)) =
    [CallNewKubeClient; CallGetKubePodInfo "web" "default";
     CallPrintResult {| res_CNIVersion := "0.3.1"; res_payload := "" |} "0.3.1"] /\
  returned (cmdAdd Faulty.noStatus Sample.args initGlobals) = Ok tt.
Proof.
  apply (cmdAdd_missing_status_excludes Faulty.noStatus Sample.args
           Sample.plainConf Sample.web Faulty.podNoStatus initGlobals).
  - sample_reaches.
  - reflexivity.
  - simpl; lia.
  - vm_compute. reflexivity.
Defined.

(** X13.  Once the pod data is known, [NewRedirect] is called, and then
    exactly once, if and only if the pod has a proxy, more than one
    container, an inject annotation that is absent or does not parse as
    [false], and a status annotation. *)
Theorem cmdAdd_builds_iff_eligible (H : Host) args conf k8sArgs pod g :
  ReachesPod H args conf k8sArgs pod ->
  let o := cmdAdd H args g in
  (countEv isNewRedirectCall (trace o) = 1 <->
   hasProxy pod = true /\
   1 < length (containers pod) /\
   (forall val, annotations pod !! injectAnnotationKey g = Some val ->
                ParseBool val <> Some false) /\
   is_Some (annotations pod !! sidecarStatusKey g)) /\
  countEv isNewRedirectCall (trace o) <= 1 /\
  countEv isExecutorCall (trace o) <= countEv isNewRedirectCall (trace o).
Proof.
  intros Hreach o.
  destruct (cmdAdd_pod_summary H args conf k8sArgs pod g Hreach)
    as (_ & _ & Hnew & Hexec & _).
  fold o in Hnew, Hexec. clearbody o.
  unfold countEv in *. rewrite Hnew, Hexec. rewrite <- allows_iff.
  unfold redirectExecutorCalls.
  destruct (allows g pod);
    [destruct (NewRedirect H (proxyUID pod) (proxyGID pod) (ports pod)
                 (annotations pod)); [destruct (setupRedirect g)|]|];
    simpl; (split; [done | lia]).
Qed.

Lemma cmdAdd_builds_iff_eligible_witness :
  (countEv isNewRedirectCall
     (trace (cmdAdd Sample.hostAllow Sample.args initGlobals)) = 1 <->
   hasProxy Sample.podAllow = true /\
   1 < length (containers Sample.podAllow) /\
   (forall val,
      annotations Sample.podAllow !! injectAnnotationKey initGlobals = Some val ->
      ParseBool val <> Some false) /\
   is_Some (annotations Sample.podAllow !! sidecarStatusKey initGlobals)) /\
  countEv isNewRedirectCall
    (trace (cmdAdd Sample.hostAllow Sample.args initGlobals)) <= 1 /\
  countEv isExecutorCall
    (trace (cmdAdd Sample.hostAllow Sample.args initGlobals))
    <= countEv isNewRedirectCall
         (trace (cmdAdd Sample.hostAllow Sample.args initGlobals)).
Proof.
  apply (cmdAdd_builds_iff_eligible Sample.hostAllow Sample.args
           Sample.plainConf Sample.web Sample.podAllow initGlobals).
  sample_reaches.
Defined.

(** X14.  Once the configuration and the CNI arguments are decoded, the
    Kubernetes client is created if and only if the pod namespace and the pod
    name are both non-empty and the namespace is not an entry of
    [ExcludeNamespaces]. *)
Theorem cmdAdd_queries_iff_candidate (H : Host) args conf k8sArgs g :
  Parses H args conf k8sArgs ->
  In CallNewKubeClient (trace (cmdAdd H args g)) <->
  K8S_POD_NAMESPACE k8sArgs <> "" /\
  K8S_POD_NAME k8sArgs <> "" /\
  ~ In (K8S_POD_NAMESPACE k8sArgs) (ExcludeNamespaces (Kubernetes_ conf)).
Proof.
  intros [Hparse Hload].
  assert (Hcalls : In CallNewKubeClient (trace (cmdAdd H args g)) <->
                   In CallNewKubeClient (callsOf (trace (cmdAdd H args g)))).
  { unfold callsOf. rewrite List.filter_In. intuition. }
  rewrite Hcalls. clear Hcalls.
  destruct (cmdAdd_outline H args g) as [_ ->].
  unfold addOutline. rewrite Hparse, Hload. cbv zeta.
  destruct (String.eqb_spec (K8S_POD_NAMESPACE k8sArgs) "") as [Hns | Hns];
    [simpl; intuition discriminate|].
  destruct (String.eqb_spec (K8S_POD_NAME k8sArgs) "") as [Hname | Hname];
    [simpl; intuition discriminate|].
  destruct (excludeLoop (K8S_POD_NAMESPACE k8sArgs)
              (ExcludeNamespaces (Kubernetes_ conf))) eqn:Hloop.
  - apply excludeLoop_In in Hloop. simpl. intuition discriminate.
  - assert (Hnot : ~ In (K8S_POD_NAMESPACE k8sArgs)
                     (ExcludeNamespaces (Kubernetes_ conf))).
    { intros Hin. apply excludeLoop_In in Hin. congruence. }
    cbn [negb andb].
    destruct (newKubeClient H conf) as [client|?]; [|simpl; tauto].
    destruct (getKubePodInfo H client (K8S_POD_NAME k8sArgs)
                (K8S_POD_NAMESPACE k8sArgs)) as [pod|?]; [|simpl; tauto].
    destruct (podReturned H args g pod); simpl; tauto.
Qed.

Lemma cmdAdd_queries_iff_candidate_witness :
  In CallNewKubeClient (trace (cmdAdd Sample.hostExcludedNs Sample.args initGlobals))
  <->
  "kube-system" <> "" /\ "coredns" <> "" /\
  ~ In "kube-system" (ExcludeNamespaces (Kubernetes_ Sample.plainConf)).
Proof.
  apply (cmdAdd_queries_iff_candidate Sample.hostExcludedNs Sample.args
           Sample.plainConf (Sample.k8sArgs "coredns" "kube-system")
           initGlobals).
  split; reflexivity.
Defined.

(** ** Invocations one after the other *)

Lemma assigned_idempotent conf g : assigned conf (assigned conf g) = assigned conf g.
Proof.
  unfold assigned.
  destruct (String.eqb (CniBinDir (Kubernetes_ conf)) "");
    destruct (String.eqb (IptablesScript (Kubernetes_ conf)) ""); reflexivity.
Qed.

(** X15.  Two invocations of [cmdAdd] in one process compose through the
    package-level variables: after the second, [nsSetupBinDir] is the second
    configuration's directory when it names one, else the first
    configuration's when that names one, else the initial value, and
    likewise [nsSetupProg]; and repeating an invocation leaves the variables
    as its first run left them. *)
Theorem cmdAdd_then_cmdAdd_globals (H1 H2 : Host) args1 args2 conf1 conf2
    k8sArgs1 k8sArgs2 g :
  Parses H1 args1 conf1 k8sArgs1 ->
  Parses H2 args2 conf2 k8sArgs2 ->
  let g1 := globalsAfter (cmdAdd H1 args1 g) in
  let g2 := globalsAfter (cmdAdd H2 args2 g1) in
  nsSetupBinDir g2 =
    (if String.eqb (CniBinDir (Kubernetes_ conf2)) ""
     then if String.eqb (CniBinDir (Kubernetes_ conf1)) ""
          then nsSetupBinDir g else CniBinDir (Kubernetes_ conf1)
     else CniBinDir (Kubernetes_ conf2)) /\
  nsSetupProg g2 =
    (if String.eqb (IptablesScript (Kubernetes_ conf2)) ""
     then if String.eqb (IptablesScript (Kubernetes_ conf1)) ""
          then nsSetupProg g else IptablesScript (Kubernetes_ conf1)
     else IptablesScript (Kubernetes_ conf2)) /\
  globalsAfter (cmdAdd H1 args1 g1) = g1.
Proof.
  intros Hparses1 Hparses2 g1 g2. subst g2 g1.
  rewrite (cmdAdd_globalsAfter H1 args1 conf1 k8sArgs1 g Hparses1).
  rewrite (cmdAdd_globalsAfter H2 args2 conf2 k8sArgs2 _ Hparses2).
  rewrite (cmdAdd_globalsAfter H1 args1 conf1 k8sArgs1 _ Hparses1).
  destruct (assigned_fields conf2 (assigned conf1 g)) as [-> ->].
  destruct (assigned_fields conf1 g) as [-> ->].
  split; [reflexivity|]. split; [reflexivity|]. apply assigned_idempotent.
Qed.

Lemma cmdAdd_then_cmdAdd_globals_witness :
  nsSetupBinDir
    (globalsAfter
       (cmdAdd Faulty.plainHost Sample.args
          (globalsAfter (cmdAdd Faulty.customHost Sample.args initGlobals))))
    = "/custom/bin" /\
  nsSetupProg
    (globalsAfter
       (cmdAdd Faulty.plainHost Sample.args
          (globalsAfter (cmdAdd Faulty.customHost Sample.args initGlobals))))
    = "setup.sh" /\
  globalsAfter
    (cmdAdd Faulty.customHost Sample.args
       (globalsAfter (cmdAdd Faulty.customHost Sample.args initGlobals)))
    = globalsAfter (cmdAdd Faulty.customHost Sample.args initGlobals).
Proof.
  apply (cmdAdd_then_cmdAdd_globals Faulty.customHost Faulty.plainHost
           Sample.args Sample.args Faulty.customBinConf Sample.plainConf
           Sample.web Sample.web initGlobals).
  - split; reflexivity.
  - split; reflexivity.
Defined.

(** ** [cmdDel] *)

Lemma ConfigureLogging_trace_globals (H : Host) logLevel g g' :
  trace (ConfigureLogging H logLevel g) = trace (ConfigureLogging H logLevel g').
Proof.
  unfold ConfigureLogging.
  destruct (strings_EqualFold H logLevel "debug"); [reflexivity|].
  destruct (strings_EqualFold H logLevel "info"); reflexivity.
Qed.

(** X16.  [cmdDel] depends on the configuration input alone: it returns
    [nil] exactly when [parseConfig] succeeds and otherwise the error of
    [parseConfig]; it never calls a collaborator (no argument loading, no pod
    query, no executor, no printed result) and never changes the
    package-level variables, so its result and its events are the same from
    any values of them, in particular after any [cmdAdd]. *)
Theorem cmdDel_depends_on_config_only (H : Host) args g g' :
  lc_returned (cmdDel H args g) =
    match parseConfig H (StdinData args) with
    | Ok _ => None
    | Err err => Some err
    end /\
  lc_globals (cmdDel H args g) = g /\
  List.filter isSharedCall (lc_trace (cmdDel H args g)) = [] /\
  lc_returned (cmdDel H args g') = lc_returned (cmdDel H args g) /\
  lc_trace (cmdDel H args g') = lc_trace (cmdDel H args g).
Proof.
  unfold cmdDel.
  destruct (parseConfig H (StdinData args)) as [conf|err]; [|done].
  cbv zeta. cbn [lc_returned lc_globals lc_trace].
  rewrite (ConfigureLogging_trace_globals H (LogLevel conf) g' g).
  destruct (ConfigureLogging_run H (LogLevel conf) g) as [lvl ->]. done.
Qed.

(** ** Verdicts and outcomes *)

Lemma cmdAdd_gate_closed_run (H : Host) args conf k8sArgs g :
  Parses H args conf k8sArgs ->
  negb (String.eqb (K8S_POD_NAMESPACE k8sArgs) "")
  && negb (String.eqb (K8S_POD_NAME k8sArgs) "")
  && negb (excludeLoop (K8S_POD_NAMESPACE k8sArgs)
             (ExcludeNamespaces (Kubernetes_ conf))) = false ->
  exists lvl m,
    (m = MsgNoKubernetesData \/ m = MsgPodExcluded) /\
    cmdAdd H args g =
      {| returned := printReturned H conf; globalsAfter := assigned conf g;
         trace := gatePrefix lvl args conf k8sArgs ++
                  [Log InfoLevel m;
                   CallPrintResult (resultOf H conf) (CNIVersion conf)] |}.
Proof.
  intros Hparses Hclosed.
  destruct (cmdAdd_run H args conf k8sArgs g Hparses) as [lvl Hrun].
  exists lvl. cbv zeta in Hrun. rewrite Hrun. clear Hrun.
  unfold k8sBlock, printBlock, printReturned.
  destruct (negb (String.eqb (K8S_POD_NAMESPACE k8sArgs) "")
            && negb (String.eqb (K8S_POD_NAME k8sArgs) "")).
  - destruct (excludeLoop (K8S_POD_NAMESPACE k8sArgs)
                (ExcludeNamespaces (Kubernetes_ conf))); [|discriminate].
    exists MsgPodExcluded. split; [by right|].
    unfold mbind, M_bind, logInfo, emit. cbn [returned globalsAfter trace negb].
    destruct (types_PrintResult H (resultOf H conf) (CNIVersion conf));
      reflexivity.
  - exists MsgNoKubernetesData. split; [by left|].
    unfold mbind, M_bind, logInfo, emit. cbn [returned globalsAfter trace].
    destruct (types_PrintResult H (resultOf H conf) (CNIVersion conf));
      reflexivity.
Qed.

(** X17.  An excluded pod is not an error: whenever the pod data is known
    and the run does not end in the verdict [Allow], [cmdAdd] builds no
    redirect, runs no executor, prints the result and returns what printing
    returns. *)
Theorem cmdAdd_excluded_is_not_error (H : Host) args conf k8sArgs pod g :
  ReachesPod H args conf k8sArgs pod ->
  verdicts (trace (cmdAdd H args g)) <> [Allow] ->
  let o := cmdAdd H args g in
  callsOf (trace o) =
    [CallNewKubeClient;
     CallGetKubePodInfo (K8S_POD_NAME k8sArgs) (K8S_POD_NAMESPACE k8sArgs);
     CallPrintResult (resultOf H conf) (CNIVersion conf)] /\
  returned o = printReturned H conf /\
  ~ In Allow (verdicts (trace o)).
Proof.
  intros Hreach Hnot o.
  destruct (cmdAdd_pod_summary H args conf k8sArgs pod g Hreach)
    as (Hv & _ & _ & _ & _ & Hret & _).
  destruct (cmdAdd_outline H args g) as [_ Hcalls].
  fold o in Hv, Hret, Hcalls, Hnot. clearbody o.
  destruct Hreach as ([Hparse Hload] & Hns & Hname & Hexcl & client
                      & Hclient & Hquery).
  assert (Hloop : excludeLoop (K8S_POD_NAMESPACE k8sArgs)
                    (ExcludeNamespaces (Kubernetes_ conf)) = false).
  { destruct (excludeLoop _ _) eqn:Hloop; [|reflexivity].
    apply excludeLoop_In in Hloop. contradiction. }
  assert (Hallow : allows g pod = false).
  { destruct (allows g pod) eqn:Hallow; [|reflexivity].
    apply podVerdicts_allow in Hallow. congruence. }
  unfold addOutline in Hcalls.
  rewrite Hparse, Hload in Hcalls. cbv zeta in Hcalls.
  rewrite (eqb_empty_false _ Hns), (eqb_empty_false _ Hname), Hloop, Hclient,
    Hquery in Hcalls.
  unfold podReturned, podCalls in Hcalls.
  rewrite Hallow in Hcalls, Hret. cbn [negb andb app snd] in Hcalls.
  split; [exact Hcalls|]. split; [exact Hret|].
  rewrite Hv. unfold podVerdicts. rewrite Hallow.
  destruct (passesLine198 pod);
    [destruct (injectExcludes (annotations pod !! injectAnnotationKey g));
     destruct (sidecarExcludes (annotations pod !! sidecarStatusKey g))|];
    simpl; intuition discriminate.
Qed.

Lemma cmdAdd_excluded_is_not_error_witness :
  callsOf (trace (cmdAdd Sample.hostOptedOut Sample.args initGlobals)) =
    [CallNewKubeClient; CallGetKubePodInfo "web" "default";
     CallPrintResult {| res_CNIVersion := "0.3.1"; res_payload := "" |} "0.3.1"] /\
  returned (cmdAdd Sample.hostOptedOut Sample.args initGlobals) = Ok tt /\
  ~ In Allow (verdicts (trace (cmdAdd Sample.hostOptedOut Sample.args initGlobals))).
Proof.
  apply (cmdAdd_excluded_is_not_error Sample.hostOptedOut Sample.args
           Sample.plainConf Sample.web Sample.podOptedOut initGlobals).
  - sample_reaches.
  - vm_compute. discriminate.
Defined.

(** X18.  In every run of [cmdAdd], [NewRedirect] is called exactly when the
    run logs that it sets up the redirect, and that verdict never comes with
    an exclusion: the verdicts are [Allow] alone or do not contain it. *)
Theorem cmdAdd_builds_iff_allow (H : Host) args g :
  let o := cmdAdd H args g in
  (countEv isNewRedirectCall (trace o) = 1 <-> verdicts (trace o) = [Allow]) /\
  (verdicts (trace o) = [Allow] \/ ~ In Allow (verdicts (trace o))).
Proof.
  intros o. subst o.
  destruct (parseConfig H (StdinData args)) as [conf|err] eqn:Hparse;
    [|rewrite (cmdAdd_parse_error_run H args g err Hparse);
      split; [split; discriminate | right; intros []]].
  destruct (types_LoadArgs H (Args args)) as [k8sArgs|err] eqn:Hload;
    [|destruct (cmdAdd_load_error_run H args conf g err Hparse Hload)
        as [lvl ->];
      split; [split; discriminate | right; intros []]].
  pose proof (conj Hparse Hload : Parses H args conf k8sArgs) as Hparses.
  destruct (negb (String.eqb (K8S_POD_NAMESPACE k8sArgs) "")
            && negb (String.eqb (K8S_POD_NAME k8sArgs) "")
            && negb (excludeLoop (K8S_POD_NAMESPACE k8sArgs)
                       (ExcludeNamespaces (Kubernetes_ conf)))) eqn:Hgate.
  - apply andb_prop in Hgate as [Hgate Hloop].
    apply andb_prop in Hgate as [Hns Hname].
    apply negb_true_iff, String.eqb_neq in Hns, Hname.
    apply negb_true_iff in Hloop.
    assert (Hexcl : ~ In (K8S_POD_NAMESPACE k8sArgs)
                      (ExcludeNamespaces (Kubernetes_ conf))).
    { intros Hin. apply excludeLoop_In in Hin. congruence. }
    destruct (cmdAdd_metadata_error_run H args conf k8sArgs g Hparses Hns
                Hname Hexcl) as [lvl Hrun].
    destruct (newKubeClient H conf) as [client|err] eqn:Hclient;
      [|rewrite Hrun; cbn [trace]; unfold countEv;
        rewrite List.filter_app, verdicts_quiet by reflexivity;
        split; [split; discriminate | right; intros []]].
    destruct (getKubePodInfo H client (K8S_POD_NAME k8sArgs)
                (K8S_POD_NAMESPACE k8sArgs)) as [pod|err] eqn:Hquery;
      [|rewrite Hrun; cbn [trace]; unfold countEv;
        rewrite List.filter_app, verdicts_quiet by reflexivity;
        split; [split; discriminate | right; intros []]].
    assert (Hreach : ReachesPod H args conf k8sArgs pod).
    { repeat split; try assumption. exists client. by split. }
    destruct (cmdAdd_pod_summary H args conf k8sArgs pod g Hreach)
      as (-> & _ & -> & _).
    rewrite podVerdicts_allow. unfold podVerdicts.
    destruct (allows g pod) eqn:Hallow.
    + split; [done | by left].
    + split; [split; discriminate|]. right.
      destruct (passesLine198 pod);
        [destruct (injectExcludes (annotations pod !! injectAnnotationKey g));
         destruct (sidecarExcludes (annotations pod !! sidecarStatusKey g))|];
        simpl; intuition discriminate.
  - destruct (cmdAdd_gate_closed_run H args conf k8sArgs g Hparses Hgate)
      as (lvl & m & Hm & ->).
    cbn [trace]. unfold countEv.
    destruct Hm as [-> | ->];
      rewrite List.filter_app, verdicts_quiet by reflexivity; simpl;
      (split; [split; discriminate | right; intuition discriminate]).
Qed.
